(** * micropython-wifi: the connection supervisor and its configuration store

    A shallow embedding of [wifi/wifi.py] (class [Wifi]) and of
    [wifi/wifi_configuration.py] (class [WifiConfiguration]), with the
    properties of the specification stated over it.

    Python integers are [Z], strings are [string], a [dict] and the
    attribute dictionary of an object are [gmap string _].  Exceptions are
    values of [exn]; a coroutine is a state-passing function that also
    returns the list of calls it made to its collaborators (radio,
    scheduler, callbacks, log sink), in order. *)

From Stdlib Require Import ZArith String List Bool Lia.
From stdpp Require Import base gmap strings list fin_maps.

Local Open Scope string_scope.
Local Open Scope Z_scope.
Local Open Scope list_scope.

(** ** Exceptions

    The source distinguishes three classes: [CancelledError] (caught by
    name), [OSError] (caught by name in [WifiConfiguration.load], and an
    [Exception]), and whatever else [except Exception] catches.
    [KeyboardInterrupt], [SystemExit] and the like derive from
    [BaseException] only and are caught by none of the handlers. *)

Inductive exn : Type :=
| CancelledError
| OSError (errno : Z)
| OtherException (name : string)
| BaseOnly (name : string).

(** [isinstance(e, Exception)] *)
Definition is_Exception (e : exn) : bool :=
  match e with
  | OSError _ | OtherException _ => true
  | CancelledError | BaseOnly _ => false
  end.

(** The exceptions some handler of the source names: [CancelledError] or an
    instance of [Exception]. *)
Definition catchable (e : exn) : bool :=
  match e with
  | BaseOnly _ => false
  | _ => true
  end.

(** ** WifiConfiguration *)

Module WifiConfiguration.

(** The values a credential attribute or a JSON member can hold. *)
Inductive pyval : Type :=
| PyNone
| PyStr (s : string)
| PyInt (z : Z)
| PyBool (b : bool).

Definition NAME : string := "wifi".
Definition SSID : string := "ssid".
Definition PASSWORD : string := "password".

(** [properties = (SSID, PASSWORD)] *)
Definition properties : list string := [SSID; PASSWORD].

(** An instance is its attribute dictionary; a [dict] handed to [update]
    or produced by [to_dict] is a map from keys to values. *)
Abbreviation obj := (gmap string pyval).
Abbreviation dict := (gmap string pyval).

(** [__init__]: three attributes, [filename] being
    [f"configuration/{NAME}.json"]. *)
Definition init (ssid password : pyval) : obj :=
  <["filename" := PyStr ("configuration/" +:+ NAME +:+ ".json")]>
    (<["password" := password]> (<["ssid" := ssid]> ∅)).

(** [getattr(self, name)] raises [AttributeError] on a missing attribute. *)
Definition getattr (self : obj) (name : string) : exn + pyval :=
  match self !! name with
  | Some v => inr v
  | None => inl (OtherException "AttributeError")
  end.

Definition setattr (self : obj) (name : string) (v : pyval) : obj :=
  <[name := v]> self.

(** The loop of [to_dict]: [if property_name in config:
    config[property_name] = getattr(self, property_name)].  The membership
    test is on [config], the dictionary under construction. *)
Fixpoint to_dict_loop (self : obj) (names : list string) (config : dict)
  : exn + dict :=
  match names with
  | [] => inr config
  | property_name :: rest =>
      match config !! property_name with
      | Some _ =>
          match getattr self property_name with
          | inl e => inl e
          | inr v => to_dict_loop self rest (<[property_name := v]> config)
          end
      | None => to_dict_loop self rest config
      end
  end.

Definition to_dict (self : obj) : exn + dict :=
  to_dict_loop self properties ∅.

(** The loop of [update]: [if property_name in config:
    setattr(self, property_name, config[property_name])]. *)
Fixpoint update_loop (names : list string) (config : dict) (self : obj) : obj :=
  match names with
  | [] => self
  | property_name :: rest =>
      match config !! property_name with
      | Some v => update_loop rest config (setattr self property_name v)
      | None => update_loop rest config self
      end
  end.

Definition update (self : obj) (config : dict) : obj :=
  update_loop properties config self.

(** *** The record store

    A path holds a record that reads back as a JSON object, or one whose
    opening or reading raises.  A path that holds nothing is an absent
    record: [open] raises [OSError] with errno 2 (ENOENT). *)
Inductive file : Type :=
| FJson (d : dict)
| FOpenFault (e : exn)
| FReadFault (e : exn).

Abbreviation store := (gmap string file).

Definition ENOENT : Z := 2.

(** [open(filename)] *)
Definition open_read (path : string) (fs : store) : exn + file :=
  match fs !! path with
  | None => inl (OSError ENOENT)
  | Some (FOpenFault e) => inl e
  | Some f => inr f
  end.

(** [json.load(stream)] *)
Definition json_load (stream : file) : exn + dict :=
  match stream with
  | FJson d => inr d
  | FOpenFault e | FReadFault e => inl e
  end.

(** [open(filename, 'w')] followed by [json.dump(config, stream)] *)
Definition open_write_dump (path : string) (config : dict) (fs : store)
  : exn + store :=
  match fs !! path with
  | Some (FOpenFault e) => inl e
  | _ => inr (<[path := FJson config]> fs)
  end.

(** [self.filename] *)
Definition filename (self : obj) : exn + string :=
  match self !! "filename" with
  | Some (PyStr p) => inr p
  | Some _ => inl (OtherException "TypeError")
  | None => inl (OtherException "AttributeError")
  end.

(** The body of the [try] of [load]. *)
Definition load_body (self : obj) (fs : store) : exn + obj :=
  match filename self with
  | inl e => inl e
  | inr path =>
      match open_read path fs with
      | inl e => inl e
      | inr stream =>
          match json_load stream with
          | inl e => inl e
          | inr config => inr (update self config)
          end
      end
  end.

(** [load]: [except OSError as error: if error.errno == 2: pass
    else: raise error]. *)
Definition load (self : obj) (fs : store) : exn + obj :=
  match load_body self fs with
  | inl (OSError errno) =>
      if errno =? 2 then inr self else inl (OSError errno)
  | r => r
  end.

(** [save]: the object is left as it is, the store gets the record. *)
Definition save (self : obj) (fs : store) : exn + store :=
  match to_dict self with
  | inl e => inl e
  | inr config =>
      match filename self with
      | inl e => inl e
      | inr path => open_write_dump path config fs
      end
  end.

End WifiConfiguration.

(** ** The supervisor's collaborators

    The radio ([network.WLAN]), [rp2.country], the scheduler behind
    [asyncio.sleep_ms] and the two callbacks are outside the repository.
    They are a simulated environment: a state of some type [D] and one
    transition function per call, each of which may raise.  Every call the
    supervisor makes is recorded as an [event], answers included, so that
    properties can speak of what the radio reported and of how often it was
    configured. *)

Inductive level : Type := TRACE | INFO | WARNING | ERROR.

(** A positional value handed to the log sink. *)
Inductive logarg : Type :=
| AStr (s : string)
| AInt (z : Z)
| ABool (b : bool)
| AExn (e : exn).   (* [str(error)] *)

(** [ip, subnet, gateway, dns] *)
Definition ifcfg : Type := (string * string * string * string)%type.

Inductive event : Type :=
| EvDeinit                                  (* [wlan.deinit()] *)
| EvActiveSet (b : bool)                    (* [wlan.active(b)] *)
| EvActive (r : bool)                       (* [wlan.active()] answered [r] *)
| EvIsConnected (r : bool)                  (* [wlan.isconnected()] answered [r] *)
| EvStatus (r : Z)                          (* [wlan.status()] answered [r] *)
| EvConnect (ssid password : string)        (* [wlan.connect(ssid, password)] *)
| EvIfconfig (r : ifcfg)                    (* [wlan.ifconfig()] answered [r] *)
| EvConfigPm (pm : Z)                       (* [wlan.config(pm=pm)] *)
| EvCountry (code : string)                 (* [country(code)] *)
| EvSleep (ms : Z)                          (* [await sleep_ms(ms)] *)
| EvReconnectCallback (ip : option string)  (* [reconnect_callback(ip)] *)
| EvFailureCallback                         (* [failure_callback()] *)
| EvRaised (e : exn)                        (* the call just made raised [e] *)
| EvLog (l : level) (template : string) (args : list logarg).

(** A call to a collaborator answers or raises, and leaves the environment
    in a new state either way. *)
Definition call (D A : Type) : Type := D -> (exn + A) * D.

(** Code of another task or of a callback: it may raise, and it may clear
    the supervisor's [_running] flag (the stop request of the
    specification); the boolean answers whether it did. *)
Definition foreign (D : Type) : Type := call D bool.

Record Env (D : Type) : Type := {
  wlan_deinit : call D unit;
  wlan_active_set : bool -> call D unit;
  wlan_active : call D bool;
  wlan_isconnected : call D bool;
  wlan_status : call D Z;
  wlan_connect : string -> string -> call D unit;
  wlan_ifconfig : call D ifcfg;
  wlan_config_pm : Z -> call D unit;
  country : string -> call D unit;
  (** what happens while the task is suspended for the given time: it is
      resumed (other tasks may have asked it to stop) or the scheduler
      throws [CancelledError] into it *)
  sched_sleep : Z -> foreign D
}.

Arguments wlan_deinit {D}.
Arguments wlan_active_set {D}.
Arguments wlan_active {D}.
Arguments wlan_isconnected {D}.
Arguments wlan_status {D}.
Arguments wlan_connect {D}.
Arguments wlan_ifconfig {D}.
Arguments wlan_config_pm {D}.
Arguments country {D}.
Arguments sched_sleep {D}.

(** ** The supervisor's state

    The attributes of a [Wifi] instance, and the simulated clock read by
    [ticks_ms].  Simulated time passes in [sleep_ms] only, and by exactly
    the time asked for; [ticks_diff] is the plain difference (the wrap-around
    of MicroPython's tick counter is left out). *)

Record Wifi (D : Type) : Type := mkWifi {
  _ssid : string;
  _password : string;
  __country_code : option string;
  __power_mode : option Z;
  _running : bool;
  wlan : D;
  clock : Z
}.

Arguments mkWifi {D}.
Arguments _ssid {D}.
Arguments _password {D}.
Arguments __country_code {D}.
Arguments __power_mode {D}.
Arguments _running {D}.
Arguments wlan {D}.
Arguments clock {D}.

(** How a call ends: it returns, it raises, or the model ran out of fuel
    (the loop was still running when the fuel was spent). *)
Inductive outcome (A : Type) : Type :=
| Ret (a : A)
| Raise (e : exn)
| OutOfFuel.

Arguments Ret {A}.
Arguments Raise {A}.
Arguments OutOfFuel {A}.

(** A method: from the state before to the outcome, the state after and
    the events of the call. *)
Definition M (D A : Type) : Type := Wifi D -> outcome A * Wifi D * list event.

Definition ret {D A} (a : A) : M D A := fun s => (Ret a, s, []).

Definition raise {D A} (e : exn) : M D A := fun s => (Raise e, s, []).

Definition out_of_fuel {D A} : M D A := fun s => (OutOfFuel, s, []).

Definition bind {D A B} (m : M D A) (f : A -> M D B) : M D B :=
  fun s =>
    match m s with
    | (Ret a, s1, t1) => let '(r, s2, t2) := f a s1 in (r, s2, t1 ++ t2)
    | (Raise e, s1, t1) => (Raise e, s1, t1)
    | (OutOfFuel, s1, t1) => (OutOfFuel, s1, t1)
    end.

Notation "'let!' x ':=' m 'in' k" := (bind m (fun x => k))
  (at level 10, x binder, m at level 100, k at level 200).
Notation "'run!' m 'in' k" := (bind m (fun _ => k))
  (at level 10, m at level 100, k at level 200).

(** [try: m except ...: h]; what [h] does not handle it raises again. *)
Definition try_except {D A} (m : M D A) (h : exn -> M D A) : M D A :=
  fun s =>
    match m s with
    | (Raise e, s1, t1) => let '(r, s2, t2) := h e s1 in (r, s2, t1 ++ t2)
    | other => other
    end.

(** [try: m finally: fin].  The [finally] clause runs however [m] ended; if
    it raises, that exception replaces the outcome of [m]. *)
Definition try_finally {D A} (m : M D A) (fin : M D unit) : M D A :=
  fun s =>
    match m s with
    | (OutOfFuel, s1, t1) => (OutOfFuel, s1, t1)
    | (r, s1, t1) =>
        match fin s1 with
        | (Ret _, s2, t2) => (r, s2, t1 ++ t2)
        | (Raise e, s2, t2) => (Raise e, s2, t1 ++ t2)
        | (OutOfFuel, s2, t2) => (OutOfFuel, s2, t1 ++ t2)
        end
    end.

Definition emit {D} (ev : event) : M D unit := fun s => (Ret tt, s, [ev]).

Definition get {D} : M D (Wifi D) := fun s => (Ret s, s, []).

Definition with_wlan {D} (s : Wifi D) (d : D) : Wifi D :=
  mkWifi (_ssid s) (_password s) (__country_code s) (__power_mode s)
         (_running s) d (clock s).

Definition with_running {D} (s : Wifi D) (b : bool) : Wifi D :=
  mkWifi (_ssid s) (_password s) (__country_code s) (__power_mode s)
         b (wlan s) (clock s).

Definition with_country_code {D} (s : Wifi D) (c : option string) : Wifi D :=
  mkWifi (_ssid s) (_password s) c (__power_mode s)
         (_running s) (wlan s) (clock s).

Definition with_power_mode {D} (s : Wifi D) (p : option Z) : Wifi D :=
  mkWifi (_ssid s) (_password s) (__country_code s) p
         (_running s) (wlan s) (clock s).

Definition with_clock {D} (s : Wifi D) (t : Z) : Wifi D :=
  mkWifi (_ssid s) (_password s) (__country_code s) (__power_mode s)
         (_running s) (wlan s) t.

(** A call that answers: the answer is recorded. *)
Definition query {D A} (op : call D A) (mk : A -> event) : M D A :=
  fun s =>
    match op (wlan s) with
    | (inl e, d) => (Raise e, with_wlan s d, [EvRaised e])
    | (inr a, d) => (Ret a, with_wlan s d, [mk a])
    end.

(** A call made for its effect: it is recorded when it is made. *)
Definition command {D} (ev : event) (op : call D unit) : M D unit :=
  fun s =>
    match op (wlan s) with
    | (inl e, d) => (Raise e, with_wlan s d, [ev; EvRaised e])
    | (inr _, d) => (Ret tt, with_wlan s d, [ev])
    end.

(** Foreign code run on behalf of the supervisor: a callback, or the other
    tasks during a suspension that lasts [elapsed] milliseconds. *)
Definition run_foreign {D} (ev : event) (elapsed : Z) (op : foreign D) : M D unit :=
  fun s =>
    match op (wlan s) with
    | (inl e, d) => (Raise e, with_wlan s d, [ev; EvRaised e])
    | (inr stop, d) =>
        (Ret tt,
         with_clock (with_running (with_wlan s d) (_running s && negb stop))
                    (clock s + elapsed),
         [ev])
    end.

(** ** Wifi *)

Section Supervisor.

Context {D : Type}.
Variable env : Env D.

(** [ticks_ms()] and [ticks_diff(a, b)] on the simulated clock. *)
Definition ticks_ms : M D Z := fun s => (Ret (clock s), s, []).

Definition ticks_diff (a b : Z) : Z := a - b.

(** [await sleep_ms(ms)]: a suspension point.  A negative time counts as
    none. *)
Definition sleep_ms (ms : Z) : M D unit :=
  run_foreign (EvSleep ms) (Z.max 0 ms) (sched_sleep env ms).

(** [self.log.<level>(template, *args)].  The logger that the [log]
    property makes on first use is the external log sink: an entry is an
    event, and writing one does not raise. *)
Definition log (l : level) (template : string) (args : list logarg) : M D unit :=
  emit (EvLog l template args).

Definition isconnected : M D bool :=
  query (wlan_isconnected env) EvIsConnected.

Definition active : M D bool :=
  query (wlan_active env) EvActive.

Definition status : M D Z :=
  query (wlan_status env) EvStatus.

Definition ifconfig : M D ifcfg :=
  query (wlan_ifconfig env) EvIfconfig.

(** [__str__] *)
Definition Wifi_str : M D string :=
  let! '(ip, subnet, gateway, dns) := ifconfig in
  let! s := get in
  ret ("Wifi(ssid='" +:+ _ssid s +:+ "', ip='" +:+ ip +:+ "', subnet='"
         +:+ subnet +:+ "', gateway='" +:+ gateway +:+ "', dns='"
         +:+ dns +:+ "')").

Definition is_connected : M D bool := isconnected.

(** [ip_address]: the address when connected, [None] otherwise. *)
Definition ip_address : M D (option string) :=
  let! c := isconnected in
  if c then
    let! '(ip, _, _, _) := ifconfig in
    ret (Some ip)
  else ret None.

(** The [while] loop of [reconnect].  The three conjuncts of its condition
    are evaluated left to right and the first false one ends the loop. *)
Fixpoint reconnect_poll (fuel : nat) (start timeout : Z) : M D unit :=
  match fuel with
  | O => out_of_fuel
  | S fuel' =>
      let! c := isconnected in
      if c then ret tt
      else
        let! st := status in
        if st >=? 0 then
          let! t := ticks_ms in
          if ticks_diff t start <? timeout then
            run! sleep_ms 50 in
            reconnect_poll fuel' start timeout
          else ret tt
        else ret tt
  end.

Definition reconnect (fuel : nat) (timeout : Z) : M D bool :=
  let! start := ticks_ms in
  let! s := get in
  run! command (EvConnect (_ssid s) (_password s))
               (wlan_connect env (_ssid s) (_password s)) in
  run! reconnect_poll fuel start timeout in
  let! c := isconnected in
  run! (if c then
          let! me := Wifi_str in
          log INFO "{} Connected" [AStr me]
        else
          let! t := ticks_ms in
          log WARNING
              "Unable to connect to wifi, reconnected timed out after {}ms"
              [AInt (ticks_diff t start)]) in
  isconnected.

Definition connect (fuel : nat) (timeout : Z) : M D bool :=
  run! command (EvActiveSet true) (wlan_active_set env true) in
  reconnect fuel timeout.

(** The body of the [try] of one iteration of [monitor].  [reconnect()] is
    called with its default timeout. *)
Definition monitor_body (fuel : nat)
           (reconnect_callback : option (option string -> foreign D))
           (failure_callback : option (foreign D)) : M D unit :=
  let! a := active in
  let! c := isconnected in
  run! log TRACE "Checking wifi status, active = {}, connected = {}"
           [ABool a; ABool c] in
  let! a' := active in
  let! down := (if a' then let! c' := isconnected in ret (negb c')
                else ret false) in
  if down then
    let! ok := reconnect fuel 10000 in
    if ok then
      match reconnect_callback with
      | Some cb =>
          let! ip := ip_address in
          run_foreign (EvReconnectCallback ip) 0 (cb ip)
      | None => ret tt
      end
    else
      match failure_callback with
      | Some cb => run_foreign EvFailureCallback 0 cb
      | None => ret tt
      end
  else ret tt.

(** The [except] clauses of [monitor]. *)
Definition monitor_handlers (error : exn) : M D unit :=
  match error with
  | CancelledError => log INFO "Wifi monitor coroutine cancelled" []
  | OSError _ | OtherException _ =>
      log ERROR "Uncaught exception: {}" [AExn error]
  | BaseOnly _ => raise error
  end.

(** One pass through the [while] body: [try] / [except] / [finally]. *)
Definition monitor_iteration (fuel : nat) (sleep_millis : Z)
           (reconnect_callback : option (option string -> foreign D))
           (failure_callback : option (foreign D)) : M D unit :=
  try_finally
    (try_except (monitor_body fuel reconnect_callback failure_callback)
                monitor_handlers)
    (sleep_ms sleep_millis).

(** [while self._running: ...] *)
Fixpoint monitor_loop (fuel : nat) (sleep_millis : Z)
         (reconnect_callback : option (option string -> foreign D))
         (failure_callback : option (foreign D)) : M D unit :=
  match fuel with
  | O => out_of_fuel
  | S fuel' =>
      let! s := get in
      if _running s then
        run! monitor_iteration fuel' sleep_millis
                               reconnect_callback failure_callback in
        monitor_loop fuel' sleep_millis reconnect_callback failure_callback
      else ret tt
  end.

Definition monitor (fuel : nat) (sleep_millis : Z)
           (reconnect_callback : option (option string -> foreign D))
           (failure_callback : option (foreign D)) : M D unit :=
  run! (fun s => (Ret tt, with_running s true, [])) in
  monitor_loop fuel sleep_millis reconnect_callback failure_callback.

(** The [except] clauses of [start]. *)
Definition start_handlers (error : exn) : M D unit :=
  match error with
  | CancelledError => log INFO "Wifi start coroutine cancelled" []
  | OSError _ | OtherException _ =>
      log ERROR "Uncaught exception in wifi.start: {}" [AExn error]
  | BaseOnly _ => raise error
  end.

(** The body of the [try] of [start]. *)
Definition start_body (fuel : nat) (timeout sleep_millis : Z)
           (reconnect_callback : option (option string -> foreign D))
           (failure_callback : option (foreign D)) : M D unit :=
  let! _ := connect fuel timeout in
  monitor fuel sleep_millis reconnect_callback failure_callback.

Definition start (fuel : nat) (timeout sleep_millis : Z)
           (reconnect_callback : option (option string -> foreign D))
           (failure_callback : option (foreign D)) : M D unit :=
  try_except
    (start_body fuel timeout sleep_millis reconnect_callback failure_callback)
    start_handlers.

(** The setters of the two properties. *)
Definition country_code_setter (country_code : string) : M D unit :=
  let! s := get in
  if decide (__country_code s = Some country_code) then ret tt
  else
    run! (fun s => (Ret tt, with_country_code s (Some country_code), [])) in
    command (EvCountry country_code) (country env country_code).

Definition power_mode_setter (power_mode : Z) : M D unit :=
  let! s := get in
  if decide (__power_mode s = Some power_mode) then ret tt
  else
    run! (fun s => (Ret tt, with_power_mode s (Some power_mode), [])) in
    command (EvConfigPm power_mode) (wlan_config_pm env power_mode).

(** [__init__], run on the state of a freshly made object: no setting
    stored yet, the radio handle [d] and the clock at [now]. *)
Definition Wifi_init (ssid password country_code : string) (power_mode : Z)
           (reset : bool) (d : D) (now : Z)
  : outcome unit * Wifi D * list event :=
  (run! (if reset then command EvDeinit (wlan_deinit env) else ret tt) in
   run! power_mode_setter power_mode in
   run! country_code_setter country_code in
   fun s => (Ret tt, with_running s false, []))
    (mkWifi ssid password None None false d now).

End Supervisor.

Arguments ticks_diff a b /.

(** ** What a run shows

    The observations the properties speak of, read off the events of a
    run. *)

(** [wlan.isconnected()] answered [True]. *)
Definition reports_connected (ev : event) : bool :=
  match ev with
  | EvIsConnected true => true
  | _ => false
  end.

(** [wlan.status()] answered below zero. *)
Definition reports_negative (ev : event) : bool :=
  match ev with
  | EvStatus st => st <? 0
  | _ => false
  end.

(** A collaborator raised. *)
Definition is_raised (ev : event) : bool :=
  match ev with
  | EvRaised _ => true
  | _ => false
  end.

(** A suspension point was reached. *)
Definition is_sleep (ev : event) : bool :=
  match ev with
  | EvSleep _ => true
  | _ => false
  end.


(** The log entry the handlers of [monitor] write for an exception they
    catch, and the one the handlers of [start] write. *)
Definition monitor_log_entry (error : exn) : event :=
  match error with
  | CancelledError => EvLog INFO "Wifi monitor coroutine cancelled" []
  | _ => EvLog ERROR "Uncaught exception: {}" [AExn error]
  end.

Definition start_log_entry (error : exn) : event :=
  match error with
  | CancelledError => EvLog INFO "Wifi start coroutine cancelled" []
  | _ => EvLog ERROR "Uncaught exception in wifi.start: {}" [AExn error]
  end.

(** The level of a log entry. *)
Definition log_level (ev : event) : option level :=
  match ev with
  | EvLog l _ _ => Some l
  | _ => None
  end.

(** The radio configuration calls among the events. *)
Definition pm_calls (t : list event) : list Z :=
  omap (fun ev => match ev with EvConfigPm pm => Some pm | _ => None end) t.

Definition country_calls (t : list event) : list string :=
  omap (fun ev => match ev with EvCountry c => Some c | _ => None end) t.

(** The values of a sequence of assignments that differ from the value
    stored when they are assigned. *)
Fixpoint changes {A} `{EqDecision A} (stored : option A) (vs : list A) : list A :=
  match vs with
  | [] => []
  | v :: rest =>
      if decide (stored = Some v) then changes stored rest
      else v :: changes (Some v) rest
  end.

(** No two neighbours of the list are equal. *)
Fixpoint no_repeat {A} (l : list A) : Prop :=
  match l with
  | a :: ((b :: _) as rest) => a <> b /\ no_repeat rest
  | _ => True
  end.

(** A sequence of assignments [wifi.power_mode = v]; an assignment that
    raises does not keep the next one from being made. *)
Definition assign_power_modes {D} (env : Env D) (vs : list Z) (s : Wifi D)
  : Wifi D * list event :=
  fold_left
    (fun acc v => let '(_, s', t) := power_mode_setter env v (fst acc) in
                  (s', snd acc ++ t))
    vs (s, []).

Definition assign_country_codes {D} (env : Env D) (vs : list string) (s : Wifi D)
  : Wifi D * list event :=
  fold_left
    (fun acc v => let '(_, s', t) := country_code_setter env v (fst acc) in
                  (s', snd acc ++ t))
    vs (s, []).



(** What [__str__] yields for the credentials' ssid and an interface
    configuration. *)
Definition Wifi_repr (ssid : string) (cfg : ifcfg) : string :=
  let '(ip, subnet, gateway, dns) := cfg in
  "Wifi(ssid='" +:+ ssid +:+ "', ip='" +:+ ip +:+ "', subnet='"
    +:+ subnet +:+ "', gateway='" +:+ gateway +:+ "', dns='" +:+ dns +:+ "')".

(** [wlan.isconnected()] answered [False]. *)
Definition reports_down (ev : event) : bool :=
  match ev with
  | EvIsConnected false => true
  | _ => false
  end.


Definition is_callback (ev : event) : bool :=
  match ev with
  | EvReconnectCallback _ | EvFailureCallback => true
  | _ => false
  end.

(** The calls [reconnect] is written to make: the connection request, the
    three kinds of query, the 50 ms suspension, and its two log entries. *)
Definition reconnect_event (ev : event) : bool :=
  match ev with
  | EvConnect _ _ | EvIsConnected _ | EvStatus _ | EvIfconfig _
  | EvRaised _ => true
  | EvSleep ms => ms =? 50
  | EvLog INFO _ _ | EvLog WARNING _ _ => true
  | _ => false
  end.

(** The calls that change how the radio is set up: switching it off,
    resetting it, writing the power mode or the country. *)
Definition reconfigures (ev : event) : bool :=
  match ev with
  | EvDeinit | EvActiveSet false | EvConfigPm _ | EvCountry _ => true
  | _ => false
  end.

(** The credentials and the two settings are the same in both states. *)
Definition same_settings {D} (s s' : Wifi D) : Prop :=
  _ssid s' = _ssid s /\ _password s' = _password s
  /\ __country_code s' = __country_code s
  /\ __power_mode s' = __power_mode s.



(** Whenever [m] raises, the last thing it did was a call that raised
    that exception: [m] raises nothing of its own. *)
Definition raises_only_from_calls {D A} (m : M D A) : Prop :=
  forall s x s' t, m s = (Raise x, s', t) -> exists t', t = t' ++ [EvRaised x].

(** Every run of [m] keeps the credentials and settings, and makes only
    calls that [P] allows. *)
Definition obeys {D A} (P : event -> bool) (m : M D A) : Prop :=
  forall s r s' t, m s = (r, s', t) -> same_settings s s' /\ forallb P t = true.

(** ** A simulated radio

    A scripted environment: what the radio answers and what the scheduler
    does depend on the number of suspension points reached so far. *)

Record Script : Type := {
  connected_after : nat -> bool;   (* answer of [isconnected()] *)
  status_after : nat -> Z;         (* answer of [status()] *)
  cancelled : nat -> bool;         (* is this suspension cancelled? *)
  stop_during : nat -> bool;       (* is a stop requested during it? *)
  interface : ifcfg
}.

Record Sim : Type := mkSim {
  sim_active : bool;
  sim_sleeps : nat
}.

Definition sim_env (sc : Script) : Env Sim := {|
  wlan_deinit := fun d => (inr tt, mkSim false (sim_sleeps d));
  wlan_active_set := fun b d => (inr tt, mkSim b (sim_sleeps d));
  wlan_active := fun d => (inr (sim_active d), d);
  wlan_isconnected := fun d => (inr (connected_after sc (sim_sleeps d)), d);
  wlan_status := fun d => (inr (status_after sc (sim_sleeps d)), d);
  wlan_connect := fun _ _ d => (inr tt, d);
  wlan_ifconfig := fun d => (inr (interface sc), d);
  wlan_config_pm := fun _ d => (inr tt, d);
  country := fun _ d => (inr tt, d);
  sched_sleep := fun _ d =>
    (if cancelled sc (sim_sleeps d) then inl CancelledError
     else inr (stop_during sc (sim_sleeps d)),
     mkSim (sim_active d) (S (sim_sleeps d)))
|}.

Definition sim_interface : ifcfg :=
  ("10.0.0.7", "255.255.255.0", "10.0.0.1", "10.0.0.1").

(** A supervisor for the credentials ("net", "secret") whose settings have
    been written, on an active radio, at time 0. *)
Definition sim_wifi : Wifi Sim :=
  mkWifi "net" "secret" (Some "US") (Some 10555712) false (mkSim true 0%nat) 0.

(** The radio never connects and reports status 0 throughout. *)
Definition never_connects : Script := {|
  connected_after := fun _ => false;
  status_after := fun _ => 0;
  cancelled := fun _ => false;
  stop_during := fun _ => false;
  interface := sim_interface
|}.


(** The link is down at first; the first suspension (the first 50 ms poll
    of the reconnect attempt) is cancelled; the link is up from the second
    suspension on, and a stop is requested during the third. *)
Definition cancel_first_poll : Script := {|
  connected_after := fun n => (2 <=? n)%nat;
  status_after := fun _ => 0;
  cancelled := fun n => (n =? 0)%nat;
  stop_during := fun n => (2 <=? n)%nat;
  interface := sim_interface
|}.

(** The radio reports a negative status throughout (an attempt fails at
    once); a stop is requested during the second suspension. *)
Definition wrong_password : Script := {|
  connected_after := fun _ => false;
  status_after := fun _ => -3;
  cancelled := fun _ => false;
  stop_during := fun n => (1 <=? n)%nat;
  interface := sim_interface
|}.

(** The radio connects once one suspension has passed; a stop is requested
    during the second suspension. *)
Definition connects_after_one_poll : Script := {|
  connected_after := fun n => (1 <=? n)%nat;
  status_after := fun _ => 0;
  cancelled := fun _ => false;
  stop_during := fun n => (1 <=? n)%nat;
  interface := sim_interface
|}.

(** The link is up throughout; a stop is requested during the first
    suspension. *)
Definition link_up : Script := {|
  connected_after := fun _ => true;
  status_after := fun _ => 3;
  cancelled := fun _ => false;
  stop_during := fun _ => true;
  interface := sim_interface
|}.

(** The link is up at first and is lost once the first suspension has
    passed; the second suspension (the first 50 ms poll of the reconnect
    attempt that [monitor] then makes) is cancelled; the link is back from
    the third suspension on, and a stop is requested during the fourth. *)
Definition link_lost_then_cancelled : Script := {|
  connected_after := fun n => negb (n =? 1)%nat;
  status_after := fun _ => 0;
  cancelled := fun n => (n =? 1)%nat;
  stop_during := fun n => (3 <=? n)%nat;
  interface := sim_interface
|}.

(** A callback that returns and leaves the environment as it is. *)
Definition quiet_callback : foreign Sim := fun d => (inr false, d).

(** A failure callback that raises. *)
Definition faulty_callback : foreign Sim :=
  fun d => (inl (OtherException "boom"), d).

(** * Properties of WifiConfiguration *)

Module WifiConfigurationFacts.
Import WifiConfiguration.

(** The membership test of [to_dict] is made on the dictionary it is
    filling, which starts empty: no property is ever copied. *)
Lemma to_dict_empty (self : obj) : to_dict self = inr ∅.
Proof.
  unfold to_dict, properties, SSID, PASSWORD. cbn [to_dict_loop].
  now rewrite !lookup_empty.
Qed.

Lemma update_unfold (self : obj) (config : dict) :
  update self config =
  match config !! "ssid", config !! "password" with
  | Some s, Some p => <["password" := p]> (<["ssid" := s]> self)
  | Some s, None => <["ssid" := s]> self
  | None, Some p => <["password" := p]> self
  | None, None => self
  end.
Proof.
  unfold update, properties, SSID, PASSWORD, setattr. cbn [update_loop].
  destruct (config !! "ssid"), (config !! "password"); reflexivity.
Qed.

(** What [save] writes holds no credentials, whatever the object holds. *)
Lemma save_writes_empty_record (self : obj) (fs fs' : store) (path : string) :
  filename self = inr path ->
  save self fs = inr fs' ->
  fs' !! path = Some (FJson ∅).
Proof.
  intros Hp. unfold save. rewrite to_dict_empty, Hp.
  unfold open_write_dump.
  destruct (fs !! path) as [[d|e|e]|]; intros [= <-];
    apply lookup_insert_eq.
Qed.

(** C2, evaluated on the code: the credentials ("net", "secret") are saved
    to an empty store and loaded into a fresh object.  The record written
    at [configuration/wifi.json] is the empty mapping, and the fresh
    object still has no ssid and no password after [load]. *)
Theorem save_then_load_loses_credentials :
  let saved := init (PyStr "net") (PyStr "secret") in
  let fresh := init PyNone PyNone in
  exists fs' loaded,
    save saved ∅ = inr fs'
    /\ fs' !! "configuration/wifi.json" = Some (FJson ∅)
    /\ load fresh fs' = inr loaded
    /\ loaded !! "ssid" = Some PyNone
    /\ loaded !! "password" = Some PyNone.
Proof.
  exists {[ "configuration/wifi.json" := FJson ∅ ]}, (init PyNone PyNone).
  repeat split; vm_compute; reflexivity.
Qed.

(** C9: when opening the record fails with errno 2 (the record is absent),
    [load] returns normally and the object is unchanged; any other
    exception raised by opening the record or by reading it comes out of
    [load]. *)
Theorem load_absent_or_fault (self : obj) (fs : store) (path : string) :
  filename self = inr path ->
  (open_read path fs = inl (OSError 2) -> load self fs = inr self)
  /\ (fs !! path = None -> load self fs = inr self)
  /\ (forall e, e <> OSError 2 ->
                open_read path fs = inl e -> load self fs = inl e)
  /\ (forall e stream, e <> OSError 2 ->
                       open_read path fs = inr stream ->
                       json_load stream = inl e ->
                       load self fs = inl e).
Proof.
  intros Hp. unfold load, load_body. rewrite Hp.
  assert (Hne : forall e, e <> OSError 2 ->
            match e with
            | OSError errno => if errno =? 2 then inr self else inl (OSError errno)
            | _ => @inl exn obj e
            end = inl e).
  { intros [ |n| | ] He; try reflexivity.
    destruct (Z.eqb_spec n 2) as [->|]; [contradiction | reflexivity]. }
  repeat split.
  - intros ->. reflexivity.
  - intros Hnone. unfold open_read. rewrite Hnone. reflexivity.
  - intros e He ->. specialize (Hne e He). destruct e; exact Hne.
  - intros e stream He -> ->. specialize (Hne e He). destruct e; exact Hne.
Qed.

Lemma load_absent_or_fault_witness :
  filename (init (PyStr "net") PyNone) = inr "configuration/wifi.json"
  /\ load (init (PyStr "net") PyNone) ∅ = inr (init (PyStr "net") PyNone)
  /\ load (init (PyStr "net") PyNone)
          {[ "configuration/wifi.json" := FOpenFault (OSError 13) ]}
     = inl (OSError 13)
  /\ load (init (PyStr "net") PyNone)
          {[ "configuration/wifi.json" := FReadFault (OtherException "ValueError") ]}
     = inl (OtherException "ValueError").
Proof.
  split; [reflexivity|].
  split; [|split].
  - apply (load_absent_or_fault (init (PyStr "net") PyNone) ∅
             "configuration/wifi.json"); reflexivity.
  - apply (load_absent_or_fault (init (PyStr "net") PyNone)
             {[ "configuration/wifi.json" := FOpenFault (OSError 13) ]}
             "configuration/wifi.json");
      [reflexivity | discriminate | reflexivity].
  - apply (load_absent_or_fault (init (PyStr "net") PyNone)
             {[ "configuration/wifi.json" := FReadFault (OtherException "ValueError") ]}
             "configuration/wifi.json") with
        (stream := FReadFault (OtherException "ValueError"));
      [reflexivity | discriminate | reflexivity | reflexivity].
Defined.

(** C10: [update] applies the entries under "ssid" and "password" and
    nothing else.  Every other attribute of the object keeps its value,
    the two attributes take the value the dictionary has for them (and
    keep theirs when it has none), two dictionaries that agree on the two
    keys have the same effect, and the same frame holds for the object a
    successful [load] leaves. *)
Theorem update_only_ssid_and_password (self : obj) (config : dict) :
  (forall k : string, k <> "ssid" -> k <> "password" ->
                      update self config !! k = self !! k)
  /\ update self config !! "ssid"
     = match config !! "ssid" with Some v => Some v | None => self !! "ssid" end
  /\ update self config !! "password"
     = match config !! "password" with
       | Some v => Some v
       | None => self !! "password"
       end
  /\ (forall config' : dict,
         config' !! "ssid" = config !! "ssid" ->
         config' !! "password" = config !! "password" ->
         update self config' = update self config)
  /\ (forall (fs : store) (self' : obj) (k : string),
         load self fs = inr self' ->
         k <> "ssid" -> k <> "password" -> self' !! k = self !! k).
Proof.
  assert (Hframe : forall (o : obj) (c : dict) (k : string),
             k <> "ssid" -> k <> "password" -> update o c !! k = o !! k).
  { intros o c k H1 H2. rewrite update_unfold.
    destruct (c !! "ssid"), (c !! "password");
      rewrite ?lookup_insert_ne by congruence; reflexivity. }
  split; [apply Hframe|].
  split; [|split; [|split]].
  - rewrite update_unfold.
    destruct (config !! "ssid"), (config !! "password");
      rewrite ?(lookup_insert_ne _ "password" "ssid") by discriminate;
      rewrite ?lookup_insert_eq; reflexivity.
  - rewrite update_unfold.
    destruct (config !! "ssid"), (config !! "password");
      rewrite ?lookup_insert_eq;
      rewrite ?(lookup_insert_ne _ "ssid" "password") by discriminate;
      reflexivity.
  - intros config' H1 H2. rewrite !update_unfold, H1, H2. reflexivity.
  - intros fs self' k Hload H1 H2. unfold load, load_body in Hload.
    destruct (filename self) as [e|path]; [destruct e; try discriminate|].
    { destruct (errno =? 2); [|discriminate].
      injection Hload as <-. reflexivity. }
    destruct (open_read path fs) as [e|stream].
    { destruct e; try discriminate.
      destruct (errno =? 2); [|discriminate].
      injection Hload as <-. reflexivity. }
    destruct (json_load stream) as [e|c].
    { destruct e; try discriminate.
      destruct (errno =? 2); [|discriminate].
      injection Hload as <-. reflexivity. }
    injection Hload as <-. apply Hframe; assumption.
Qed.

Lemma update_only_ssid_and_password_witness :
  "filename" <> "ssid" /\ "filename" <> "password"
  /\ update (init PyNone PyNone)
            (<["ssid" := PyStr "net"]>
               (<["filename" := PyStr "elsewhere"]>
                  (<["channel" := PyInt 6]> ∅))) !! "filename"
     = init PyNone PyNone !! "filename".
Proof.
  split; [discriminate|]. split; [discriminate|].
  apply (update_only_ssid_and_password (init PyNone PyNone)
           (<["ssid" := PyStr "net"]>
              (<["filename" := PyStr "elsewhere"]>
                 (<["channel" := PyInt 6]> ∅)))); discriminate.
Defined.

End WifiConfigurationFacts.

(** * Properties of Wifi *)

Section SupervisorFacts.

Context {D : Type}.
Variable env : Env D.

Implicit Types (s : Wifi D) (t : list event) (fuel : nat) (T : Z).

(** ** The monad *)

Lemma bind_inv {A B} (m : M D A) (f : A -> M D B) s (r : outcome B) s' t :
  bind m f s = (r, s', t) ->
  (exists a s1 t1 t2,
      m s = (Ret a, s1, t1) /\ f a s1 = (r, s', t2) /\ t = t1 ++ t2)
  \/ (exists e, m s = (Raise e, s', t) /\ r = Raise e)
  \/ (m s = (OutOfFuel, s', t) /\ r = OutOfFuel).
Proof.
  unfold bind. destruct (m s) as [[[a|e|] s1] t1].
  - destruct (f a s1) as [[r2 s2] t2] eqn:Hf. intros [= <- <- <-].
    left. exists a, s1, t1, t2. auto.
  - intros [= <- <- <-]. right. left. exists e. auto.
  - intros [= <- <- <-]. right. right. auto.
Qed.

Lemma bind_ticks_ms {B} (f : Z -> M D B) s :
  bind ticks_ms f s = f (clock s) s.
Proof.
  unfold bind, ticks_ms. destruct (f (clock s) s) as [[r s2] t2]. reflexivity.
Qed.

Lemma bind_get {B} (f : Wifi D -> M D B) s : bind get f s = f s s.
Proof.
  unfold bind, get. destruct (f s s) as [[r s2] t2]. reflexivity.
Qed.

Lemma query_inv {A} (op : call D A) (mk : A -> event) s (r : outcome A) s' t :
  query op mk s = (r, s', t) ->
  clock s' = clock s
  /\ ((exists a, r = Ret a /\ t = [mk a])
      \/ (exists e, r = Raise e /\ t = [EvRaised e])).
Proof.
  unfold query. destruct (op (wlan s)) as [[e|a] d]; intros [= <- <- <-];
    (split; [reflexivity|]); eauto.
Qed.

Lemma command_inv (ev : event) (op : call D unit) s (r : outcome unit) s' t :
  command ev op s = (r, s', t) ->
  clock s' = clock s
  /\ ((r = Ret tt /\ t = [ev])
      \/ (exists e, r = Raise e /\ t = [ev; EvRaised e])).
Proof.
  unfold command. destruct (op (wlan s)) as [[e|a] d]; intros [= <- <- <-];
    (split; [reflexivity|]); eauto.
Qed.

Lemma sleep_ms_inv (ms : Z) s (r : outcome unit) s' t :
  sleep_ms env ms s = (r, s', t) ->
  (r = Ret tt /\ t = [EvSleep ms] /\ clock s' = clock s + Z.max 0 ms)
  \/ (exists e, r = Raise e /\ t = [EvSleep ms; EvRaised e]
                /\ clock s' = clock s).
Proof.
  unfold sleep_ms, run_foreign.
  destruct (sched_sleep env ms (wlan s)) as [[e|stop] d];
    intros [= <- <- <-]; [right | left]; eauto.
Qed.

(** ** The polling loop of [reconnect] *)



(** ** What the runs of the polling loop have in common *)



(** ** [reconnect] around its loop *)

Lemma Wifi_str_inv s (r : outcome string) s' t :
  Wifi_str env s = (r, s', t) ->
  clock s' = clock s
  /\ ((exists me cfg, r = Ret me /\ t = [EvIfconfig cfg])
      \/ (exists x, r = Raise x /\ t = [EvRaised x])).
Proof.
  unfold Wifi_str. intros H.
  apply bind_inv in H as [(cfg & s1 & t1 & t2 & Hq & H & ->)|[(e & Hq & ->)|[Hq _]]];
    apply query_inv in Hq as [Hc Hq];
    destruct Hq as [(a & Ha & ->)|(x & Hx & ->)]; try discriminate.
  - destruct cfg as [[[ip sn] gw] dns]. rewrite bind_get in H.
    injection H as <- <- <-. split; [exact Hc|]. left. eauto.
  - injection Hx as ->. split; [exact Hc|]. right. eauto.
Qed.

(** The log entry written after the loop. *)
Lemma reconnect_report_inv (c : bool) (start : Z) s (r : outcome unit) s' t :
  (if c then
     let! me := Wifi_str env in
     log INFO "{} Connected" [AStr me]
   else
     let! now := ticks_ms in
     log WARNING "Unable to connect to wifi, reconnected timed out after {}ms"
         [AInt (ticks_diff now start)]) s = (r, s', t) ->
  clock s' = clock s
  /\ existsb is_sleep t = false
  /\ existsb reports_negative t = false
  /\ existsb reports_connected t = false
  /\ r <> OutOfFuel
  /\ (existsb is_raised t = false -> r = Ret tt).
Proof.
  destruct c; intros H.
  - apply bind_inv in H as [(me & s1 & t1 & t2 & Hs & H & ->)|[(e & Hs & ->)|[Hs _]]];
      apply Wifi_str_inv in Hs as [Hc Hs];
      destruct Hs as [(me' & cfg & Hr & ->)|(x & Hx & ->)]; try discriminate.
    + injection H as <- <- <-. cbn. repeat split; auto; discriminate.
    + cbn. repeat split; auto; discriminate.
  - rewrite bind_ticks_ms in H. injection H as <- <- <-.
    cbn. repeat split; auto; discriminate.
Qed.

(** What follows the loop: one query, one log entry, and the query whose
    answer is returned.  No suspension, no status query; when the radio
    does not report connected and nothing raises, the answer is false. *)
Lemma reconnect_inv fuel T s (r : outcome bool) s' t :
  reconnect env fuel T s = (r, s', t) ->
  (exists x, r = Raise x
             /\ t = [EvConnect (_ssid s) (_password s); EvRaised x]
             /\ clock s' = clock s)
  \/ (exists tp rp s1,
         reconnect_poll env fuel (clock s) T s1 = (rp, s', tp)
         /\ clock s1 = clock s
         /\ rp <> Ret tt
         /\ r = match rp with Raise x => Raise x | _ => OutOfFuel end
         /\ t = EvConnect (_ssid s) (_password s) :: tp)
  \/ (exists tp s1 s2 tail,
         reconnect_poll env fuel (clock s) T s1 = (Ret tt, s2, tp)
         /\ clock s1 = clock s
         /\ clock s' = clock s2
         /\ t = EvConnect (_ssid s) (_password s) :: tp ++ tail
         /\ existsb is_sleep tail = false
         /\ existsb reports_negative tail = false
         /\ r <> OutOfFuel
         /\ (existsb reports_connected tail = false ->
             existsb is_raised tail = false -> r = Ret false)).
Proof.
  unfold reconnect. rewrite bind_ticks_ms, bind_get. intros H.
  apply bind_inv in H as [(u & s1 & t1 & t2 & Hq & H & ->)|[(e & Hq & ->)|[Hq _]]];
    apply command_inv in Hq as [Hc1 Hq];
    destruct Hq as [[Hu ->]|(x & Hx & ->)]; try discriminate.
  2:{ injection Hx as <-. left. exists e. auto. }
  right. cbn [app].
  apply bind_inv in H as [([] & s2 & tp & t3 & Hp & H & ->)|[(e & Hp & ->)|[Hp ->]]].
  2:{ left. exists t2, (Raise e), s1. repeat split; auto; discriminate. }
  2:{ left. exists t2, OutOfFuel, s1. repeat split; auto; discriminate. }
  right. exists tp, s1, s2, t3. split; [exact Hp|]. split; [exact Hc1|].
  apply bind_inv in H as [(c & s3 & t4 & t5 & Hq & H & ->)|[(e & Hq & ->)|[Hq _]]];
    apply query_inv in Hq as [Hc3 Hq];
    destruct Hq as [(a & Ha & ->)|(x & Hx & ->)]; try discriminate.
  2:{ repeat split; auto; subst; discriminate. }
  injection Ha as ->.
  apply bind_inv in H as [(u' & s4 & t6 & t7 & Hm & H & ->)|[(e & Hm & ->)|[Hm ->]]];
    apply reconnect_report_inv in Hm as (Hc4 & Hsl & Hng & Hcn & Hnf & Hok);
    try congruence.
  - apply query_inv in H as [Hc5 H].
    split; [lia|]. split; [reflexivity|].
    rewrite !existsb_app, Hsl, Hng, Hcn.
    destruct H as [(b & -> & ->)|(x & -> & ->)]; cbn;
      (split; [reflexivity|]); (split; [reflexivity|]);
      (split; [discriminate|]).
    + destruct a, b; cbn; intros; congruence.
    + destruct a; cbn; rewrite ?orb_true_r; intros; discriminate.
  - split; [lia|]. split; [reflexivity|].
    rewrite !existsb_app, Hsl, Hng, Hcn.
    split; [reflexivity|]. split; [reflexivity|]. split; [discriminate|].
    destruct a; cbn; intros _ Hr; specialize (Hok Hr); discriminate.
Qed.

(** ** Timing of [reconnect] *)



End SupervisorFacts.




Section MonitorFacts.

Context {D : Type}.
Variable env : Env D.

Implicit Types (s : Wifi D) (t : list event) (fuel : nat).

(** ** One iteration of [monitor] whose body raises *)

(** An exception the handlers name is logged and the [finally] clause
    suspends the task; the iteration ends as the suspension ends. *)
Lemma monitor_iteration_handled fuel (sleep_millis : Z) rcb fcb s e s1 t1 :
  monitor_body env fuel rcb fcb s = (Raise e, s1, t1) ->
  catchable e = true ->
  monitor_iteration env fuel sleep_millis rcb fcb s =
  (let '(r, s2, t2) := sleep_ms env sleep_millis s1 in
   (r, s2, t1 ++ monitor_log_entry e :: t2)).
Proof.
  intros Hbody He.
  unfold monitor_iteration, try_finally, try_except. rewrite Hbody.
  destruct e; try discriminate; cbn [monitor_handlers log emit monitor_log_entry];
    destruct (sleep_ms env sleep_millis s1) as [[[[]|x|] s2] t2];
    now rewrite <- app_assoc.
Qed.

(** The loop goes round again: after the log entry and the suspension,
    [monitor] is where it would be had it been started in the state the
    suspension leaves. *)
Lemma monitor_loop_handled fuel (sleep_millis : Z) rcb fcb s e s1 t1 s2 :
  _running s = true ->
  monitor_body env fuel rcb fcb s = (Raise e, s1, t1) ->
  catchable e = true ->
  sleep_ms env sleep_millis s1 = (Ret tt, s2, [EvSleep sleep_millis]) ->
  monitor_loop env (S fuel) sleep_millis rcb fcb s =
  (let '(r, s3, t3) := monitor_loop env fuel sleep_millis rcb fcb s2 in
   (r, s3, t1 ++ [monitor_log_entry e; EvSleep sleep_millis] ++ t3)).
Proof.
  intros Hrun Hbody He Hsleep. cbn [monitor_loop].
  rewrite bind_get, Hrun. unfold bind.
  rewrite (monitor_iteration_handled _ _ _ _ _ _ _ _ Hbody He), Hsleep.
  destruct (monitor_loop env fuel sleep_millis rcb fcb s2) as [[r s3] t3].
  now rewrite <- app_assoc.
Qed.

(** C5: an iteration that starts in any state [s] with the loop running,
    and whose body raises an exception [e] that is an [Exception] (from a
    callback or from anywhere else in the body).  The iteration catches
    [e] and logs it at error level, then performs the [sleep_millis]
    suspension; when that suspension completes, the loop continues from
    the state it leaves, and with the flag still set the next iteration
    is executed. *)
Theorem monitor_survives_fault fuel (sleep_millis : Z) rcb fcb s e s1 t1 :
  _running s = true ->
  monitor_body env fuel rcb fcb s = (Raise e, s1, t1) ->
  is_Exception e = true ->
  monitor_iteration env fuel sleep_millis rcb fcb s
  = (let '(r, s2, t2) := sleep_ms env sleep_millis s1 in
     (r, s2, t1 ++ EvLog ERROR "Uncaught exception: {}" [AExn e] :: t2))
  /\ (exists r s2 t2, sleep_ms env sleep_millis s1 = (r, s2, t2)
                      /\ head t2 = Some (EvSleep sleep_millis))
  /\ (forall s2,
         sleep_ms env sleep_millis s1 = (Ret tt, s2, [EvSleep sleep_millis]) ->
         monitor_loop env (S fuel) sleep_millis rcb fcb s
         = (let '(r, s3, t3) := monitor_loop env fuel sleep_millis rcb fcb s2 in
            (r, s3,
             t1 ++ [EvLog ERROR "Uncaught exception: {}" [AExn e];
                    EvSleep sleep_millis] ++ t3))
         /\ (forall fuel',
                fuel = S fuel' -> _running s2 = true ->
                monitor_loop env fuel sleep_millis rcb fcb s2
                = (run! monitor_iteration env fuel' sleep_millis rcb fcb in
                   monitor_loop env fuel' sleep_millis rcb fcb) s2)).
Proof.
  intros Hrun Hbody He.
  assert (Hc : catchable e = true) by (destruct e; auto; discriminate).
  assert (Hl : monitor_log_entry e = EvLog ERROR "Uncaught exception: {}" [AExn e])
    by (destruct e; auto; discriminate).
  split; [|split].
  - rewrite (monitor_iteration_handled _ _ _ _ _ _ _ _ Hbody Hc), Hl. reflexivity.
  - destruct (sleep_ms env sleep_millis s1) as [[r s2] t2] eqn:Hs.
    exists r, s2, t2. split; [reflexivity|].
    apply sleep_ms_inv in Hs as [(_ & -> & _)|(x & _ & -> & _)]; reflexivity.
  - intros s2 Hs. split.
    + rewrite (monitor_loop_handled _ _ _ _ _ _ _ _ _ Hrun Hbody Hc Hs), Hl.
      reflexivity.
    + intros fuel' -> Hrun2. cbn [monitor_loop]. now rewrite !bind_get, Hrun2.
Qed.

(** ** [start] *)

(** C7: whatever boolean [connect(timeout)] returns, what [start] does
    next is [monitor], run from the state [connect] left; the events of
    [connect] come first, and the rest of the run does not depend on the
    boolean. *)
Theorem start_connects_then_monitors fuel (timeout sleep_millis : Z) rcb fcb
        s (b : bool) s1 t1 :
  connect env fuel timeout s = (Ret b, s1, t1) ->
  start_body env fuel timeout sleep_millis rcb fcb s
  = (let '(r, s2, t2) := monitor env fuel sleep_millis rcb fcb s1 in
     (r, s2, t1 ++ t2))
  /\ start env fuel timeout sleep_millis rcb fcb s
     = (let '(r, s2, t2) :=
          try_except (monitor env fuel sleep_millis rcb fcb) start_handlers s1 in
        (r, s2, t1 ++ t2)).
Proof.
  intros Hc. unfold start, start_body, try_except, bind. rewrite Hc.
  split; [reflexivity|].
  destruct (monitor env fuel sleep_millis rcb fcb s1) as [[[[]|e|] s2] t2];
    try reflexivity.
  destruct (start_handlers e s2) as [[r s3] t3]. now rewrite app_assoc.
Qed.

(** What the handlers of [start] do: a [CancelledError] or an [Exception]
    that comes out of the call of [connect] or out of the call of [monitor]
    is caught, [start] writes one log entry (informational level for the
    cancellation, error level otherwise) and returns normally.  Whatever
    the collaborators do, no [CancelledError] and no [Exception] comes out
    of [start].  This covers only what [monitor] lets out: see
    [start_cancelled_in_monitor] for what it keeps to itself. *)
Lemma start_catches_faults fuel (timeout sleep_millis : Z) rcb fcb s :
  (forall e s1 t1,
      catchable e = true ->
      connect env fuel timeout s = (Raise e, s1, t1) ->
      start env fuel timeout sleep_millis rcb fcb s
      = (Ret tt, s1, t1 ++ [start_log_entry e]))
  /\ (forall e (b : bool) s1 t1 s2 t2,
         catchable e = true ->
         connect env fuel timeout s = (Ret b, s1, t1) ->
         monitor env fuel sleep_millis rcb fcb s1 = (Raise e, s2, t2) ->
         start env fuel timeout sleep_millis rcb fcb s
         = (Ret tt, s2, t1 ++ t2 ++ [start_log_entry e]))
  /\ (forall e,
         log_level (start_log_entry e)
         = Some (match e with CancelledError => INFO | _ => ERROR end))
  /\ (forall e s' t,
         start env fuel timeout sleep_millis rcb fcb s = (Raise e, s', t) ->
         catchable e = false).
Proof.
  repeat split.
  - intros e s1 t1 He Hc. unfold start, start_body, try_except, bind.
    rewrite Hc. destruct e; try discriminate; reflexivity.
  - intros e b s1 t1 s2 t2 He Hc Hm. unfold start, start_body, try_except, bind.
    rewrite Hc, Hm. destruct e; try discriminate; cbn; now rewrite app_assoc.
  - intros []; reflexivity.
  - intros e s' t. unfold start, try_except.
    destruct (start_body env fuel timeout sleep_millis rcb fcb s)
      as [[[[]|x|] s1] t1]; try discriminate.
    destruct x; cbn; try discriminate. intros [= <- _ _]. reflexivity.
Qed.

(** A [CancelledError] raised inside an iteration of the [monitor] phase
    never reaches the handlers of [start]: [monitor] logs it itself,
    suspends the task for [sleep_millis] and, when that suspension ends,
    [start] is still inside the loop, which goes on from the state the
    suspension leaves.  At that point [start] has neither written its own
    entry nor returned. *)
Lemma start_cancelled_in_monitor fuel (timeout sleep_millis : Z) rcb fcb
      s (b : bool) s1 t1 s2 t2 s3 :
  connect env (S fuel) timeout s = (Ret b, s1, t1) ->
  monitor_body env fuel rcb fcb (with_running s1 true)
  = (Raise CancelledError, s2, t2) ->
  sleep_ms env sleep_millis s2 = (Ret tt, s3, [EvSleep sleep_millis]) ->
  start env (S fuel) timeout sleep_millis rcb fcb s
  = (let '(r, s4, t4) :=
       try_except (monitor_loop env fuel sleep_millis rcb fcb)
                  start_handlers s3 in
     (r, s4,
      t1 ++ t2 ++ [EvLog INFO "Wifi monitor coroutine cancelled" [];
                   EvSleep sleep_millis] ++ t4)).
Proof.
  intros Hc Hbody Hsleep.
  assert (Hrun : _running (with_running s1 true) = true) by reflexivity.
  pose proof (monitor_loop_handled fuel sleep_millis rcb fcb _ _ _ _ _
                Hrun Hbody eq_refl Hsleep) as Hloop.
  unfold start, start_body, monitor, try_except, bind. rewrite Hc.
  cbn [app]. rewrite Hloop.
  destruct (monitor_loop env fuel sleep_millis rcb fcb s3) as [[[[]|e|] s4] t4];
    cbn [monitor_log_entry app]; try reflexivity.
  destruct (start_handlers e s4) as [[r s5] t5].
  now rewrite <- !app_assoc.
Qed.

End MonitorFacts.

Section SetterFacts.

Context {D : Type}.
Variable env : Env D.

Implicit Types (s : Wifi D) (t : list event).

Lemma power_mode_setter_same s (v : Z) :
  __power_mode s = Some v -> power_mode_setter env v s = (Ret tt, s, []).
Proof.
  intros H. unfold power_mode_setter. rewrite bind_get.
  destruct (decide (__power_mode s = Some v)); [reflexivity | contradiction].
Qed.

Lemma power_mode_setter_new s (v : Z) (r : outcome unit) s' t :
  __power_mode s <> Some v ->
  power_mode_setter env v s = (r, s', t) ->
  __power_mode s' = Some v /\ pm_calls t = [v].
Proof.
  intros H. unfold power_mode_setter. rewrite bind_get.
  destruct (decide (__power_mode s = Some v)); [contradiction|].
  unfold bind, command. cbn [wlan with_power_mode].
  destruct (wlan_config_pm env v (wlan s)) as [[e|[]] d];
    intros [= <- <- <-]; split; reflexivity.
Qed.

Lemma country_code_setter_same s (c : string) :
  __country_code s = Some c -> country_code_setter env c s = (Ret tt, s, []).
Proof.
  intros H. unfold country_code_setter. rewrite bind_get.
  destruct (decide (__country_code s = Some c)); [reflexivity | contradiction].
Qed.

Lemma country_code_setter_new s (c : string) (r : outcome unit) s' t :
  __country_code s <> Some c ->
  country_code_setter env c s = (r, s', t) ->
  __country_code s' = Some c /\ country_calls t = [c].
Proof.
  intros H. unfold country_code_setter. rewrite bind_get.
  destruct (decide (__country_code s = Some c)); [contradiction|].
  unfold bind, command. cbn [wlan with_country_code].
  destruct (country env c (wlan s)) as [[e|[]] d];
    intros [= <- <- <-]; split; reflexivity.
Qed.

(** ** Sequences of assignments *)

Lemma changes_head {A} `{EqDecision A} (v w : A) (vs l : list A) :
  changes (Some v) vs = w :: l -> w <> v.
Proof.
  induction vs as [|a vs IH]; cbn [changes]; [discriminate|].
  destruct (decide (Some v = Some a)) as [Heq|Hne]; [exact IH|].
  intros [= -> _] ->. now apply Hne.
Qed.

Lemma changes_no_repeat {A} `{EqDecision A} (stored : option A) (vs : list A) :
  no_repeat (changes stored vs).
Proof.
  revert stored. induction vs as [|a vs IH]; intros stored; cbn [changes].
  - exact I.
  - destruct (decide (stored = Some a)); [apply IH|].
    specialize (IH (Some a)).
    destruct (changes (Some a) vs) as [|b l] eqn:Hc; [exact I|].
    split; [|exact IH].
    intros ->. now apply (changes_head _ _ _ _ Hc).
Qed.

Lemma changes_length {A} `{EqDecision A} (stored : option A) (vs : list A) :
  (length (changes stored vs) <= length vs)%nat.
Proof.
  revert stored. induction vs as [|a vs IH]; intros stored; cbn [changes length].
  - lia.
  - destruct (decide (stored = Some a)); cbn [length];
      [specialize (IH stored) | specialize (IH (Some a))]; lia.
Qed.

Lemma assign_power_modes_calls (vs : list Z) s t0 :
  pm_calls
    (fold_left
       (fun acc v => let '(_, s', t) := power_mode_setter env v acc.1 in
                     (s', acc.2 ++ t))
       vs (s, t0)).2
  = pm_calls t0 ++ changes (__power_mode s) vs.
Proof.
  revert s t0. induction vs as [|v vs IH]; intros s t0; cbn [fold_left changes fst snd].
  - now rewrite app_nil_r.
  - destruct (decide (__power_mode s = Some v)) as [Heq|Hne].
    + rewrite (power_mode_setter_same _ _ Heq), IH. now rewrite app_nil_r.
    + destruct (power_mode_setter env v s) as [[r s'] t] eqn:Hset.
      destruct (power_mode_setter_new _ _ _ _ _ Hne Hset) as [Hpm Hcalls].
      rewrite IH, Hpm. unfold pm_calls in *. rewrite omap_app, Hcalls.
      now rewrite <- app_assoc.
Qed.

Lemma assign_country_codes_calls (cs : list string) s t0 :
  country_calls
    (fold_left
       (fun acc v => let '(_, s', t) := country_code_setter env v acc.1 in
                     (s', acc.2 ++ t))
       cs (s, t0)).2
  = country_calls t0 ++ changes (__country_code s) cs.
Proof.
  revert s t0. induction cs as [|c cs IH]; intros s t0; cbn [fold_left changes fst snd].
  - now rewrite app_nil_r.
  - destruct (decide (__country_code s = Some c)) as [Heq|Hne].
    + rewrite (country_code_setter_same _ _ Heq), IH. now rewrite app_nil_r.
    + destruct (country_code_setter env c s) as [[r s'] t] eqn:Hset.
      destruct (country_code_setter_new _ _ _ _ _ Hne Hset) as [Hcc Hcalls].
      rewrite IH, Hcc. unfold country_calls in *. rewrite omap_app, Hcalls.
      now rewrite <- app_assoc.
Qed.

(** C6: in any state of the supervisor, assigning to [power_mode] (and to
    [country_code]) the value that is stored makes no radio call and
    changes nothing; assigning another value stores it and makes the
    configuration call once, with that value.  Over a sequence of
    assignments the configuration calls are therefore the assigned values
    that differ from the value stored when they are assigned: no value is
    written twice in a row, and there are no more calls than
    assignments. *)
Theorem settings_written_on_change s :
  (forall v : Z, __power_mode s = Some v ->
                 power_mode_setter env v s = (Ret tt, s, []))
  /\ (forall (v : Z) r s' t,
         __power_mode s <> Some v ->
         power_mode_setter env v s = (r, s', t) ->
         __power_mode s' = Some v /\ pm_calls t = [v])
  /\ (forall c : string, __country_code s = Some c ->
                         country_code_setter env c s = (Ret tt, s, []))
  /\ (forall (c : string) r s' t,
         __country_code s <> Some c ->
         country_code_setter env c s = (r, s', t) ->
         __country_code s' = Some c /\ country_calls t = [c])
  /\ (forall vs : list Z,
         pm_calls (assign_power_modes env vs s).2 = changes (__power_mode s) vs
         /\ no_repeat (pm_calls (assign_power_modes env vs s).2)
         /\ (length (pm_calls (assign_power_modes env vs s).2) <= length vs)%nat)
  /\ (forall cs : list string,
         country_calls (assign_country_codes env cs s).2
         = changes (__country_code s) cs
         /\ no_repeat (country_calls (assign_country_codes env cs s).2)
         /\ (length (country_calls (assign_country_codes env cs s).2)
             <= length cs)%nat).
Proof.
  split; [apply power_mode_setter_same|].
  split; [apply power_mode_setter_new|].
  split; [apply country_code_setter_same|].
  split; [apply country_code_setter_new|].
  split.
  - intros vs. unfold assign_power_modes.
    rewrite (assign_power_modes_calls vs s []).
    change (pm_calls []) with (@nil Z). cbn [app].
    auto using changes_no_repeat, changes_length.
  - intros cs. unfold assign_country_codes.
    rewrite (assign_country_codes_calls cs s []).
    change (country_calls []) with (@nil string). cbn [app].
    auto using changes_no_repeat, changes_length.
Qed.

End SetterFacts.

(** * The properties on the simulated radio *)

(** C1, evaluated on the code: [monitor(2000)] on an active radio whose link
    is down, where the scheduler throws [CancelledError] into the first
    50 ms poll of the reconnect attempt.  The cancellation is logged at
    informational level; the [finally] clause then suspends the task for
    2000 ms and, [_running] being still set, a second iteration follows
    (the link is up by then).  The loop ends only because a stop is
    requested during the suspension that follows the second iteration. *)
Theorem monitor_cancelled_keeps_running :
  monitor (sim_env cancel_first_poll) 5 2000 None None sim_wifi
  = (Ret tt,
     mkWifi "net" "secret" (Some "US") (Some 10555712) false (mkSim true 3) 4000,
     [EvActive true; EvIsConnected false;
      EvLog TRACE "Checking wifi status, active = {}, connected = {}"
            [ABool true; ABool false];
      EvActive true; EvIsConnected false;
      EvConnect "net" "secret"; EvIsConnected false; EvStatus 0;
      EvSleep 50; EvRaised CancelledError;
      EvLog INFO "Wifi monitor coroutine cancelled" [];
      EvSleep 2000;
      EvActive true; EvIsConnected true;
      EvLog TRACE "Checking wifi status, active = {}, connected = {}"
            [ABool true; ABool true];
      EvActive true; EvIsConnected true;
      EvSleep 2000]).
Proof. vm_compute. reflexivity. Qed.

(** The constructor goes through the two setters: on a fresh object each
    of them makes its configuration call, once. *)
Example Wifi_init_configures_once :
  Wifi_init (sim_env never_connects) "net" "secret" "US" 10555712 false
            (mkSim false 0) 0
  = (Ret tt,
     mkWifi "net" "secret" (Some "US") (Some 10555712) false (mkSim false 0) 0,
     [EvConfigPm 10555712; EvCountry "US"]).
Proof. vm_compute. reflexivity. Qed.

(** C4, evaluated on the code: [start()] with its default arguments on a
    radio whose link is up, so that the initial [connect] returns at once.
    The link is lost during the first 2000 ms suspension of [monitor]; the
    second iteration starts a reconnect attempt, and the scheduler throws
    [CancelledError] into its first 50 ms poll.  The cancellation is
    raised during the monitor phase of [start], but it is the handler of
    [monitor] that catches it: the entry written is the one of [monitor],
    the task is suspended for 2000 ms and a third iteration follows.
    [start] writes no entry of its own and does not return on the
    cancellation; it returns only because a stop is requested during the
    suspension that follows the third iteration. *)
Theorem start_misses_cancellation_in_monitor :
  start (sim_env link_lost_then_cancelled) 5 10000 2000 None None sim_wifi
  = (Ret tt,
     mkWifi "net" "secret" (Some "US") (Some 10555712) false (mkSim true 4) 6000,
     [EvActiveSet true; EvConnect "net" "secret";
      EvIsConnected true; EvIsConnected true;
      EvIfconfig sim_interface;
      EvLog INFO "{} Connected"
            [AStr "Wifi(ssid='net', ip='10.0.0.7', subnet='255.255.255.0', gateway='10.0.0.1', dns='10.0.0.1')"];
      EvIsConnected true;
      EvActive true; EvIsConnected true;
      EvLog TRACE "Checking wifi status, active = {}, connected = {}"
            [ABool true; ABool true];
      EvActive true; EvIsConnected true;
      EvSleep 2000;
      EvActive true; EvIsConnected false;
      EvLog TRACE "Checking wifi status, active = {}, connected = {}"
            [ABool true; ABool false];
      EvActive true; EvIsConnected false;
      EvConnect "net" "secret"; EvIsConnected false; EvStatus 0;
      EvSleep 50; EvRaised CancelledError;
      EvLog INFO "Wifi monitor coroutine cancelled" [];
      EvSleep 2000;
      EvActive true; EvIsConnected true;
      EvLog TRACE "Checking wifi status, active = {}, connected = {}"
            [ABool true; ABool true];
      EvActive true; EvIsConnected true;
      EvSleep 2000]).
Proof. vm_compute. reflexivity. Qed.

(** The handlers of [start] on the simulated radio: the scheduler cancels
    the task in the first poll of the initial [connect]; [start] returns
    normally, with one entry at informational level added to what
    [connect] did. *)
Lemma start_catches_faults_witness :
  start (sim_env cancel_first_poll) 5 10000 2000 None None sim_wifi
  = (Ret tt,
     (connect (sim_env cancel_first_poll) 5 10000 sim_wifi).1.2,
     (connect (sim_env cancel_first_poll) 5 10000 sim_wifi).2
       ++ [EvLog INFO "Wifi start coroutine cancelled" []]).
Proof.
  apply (proj1 (start_catches_faults (sim_env cancel_first_poll)
                  5 10000 2000 None None sim_wifi) CancelledError).
  - reflexivity.
  - vm_compute. reflexivity.
Defined.

(** C5 on the simulated radio: the reconnect attempt fails at once and the
    failure callback raises.  The loop started with fuel 6 goes on, after
    the error entry and the 2000 ms suspension, as the loop with fuel 5
    from the state the suspension leaves. *)
Lemma monitor_survives_fault_witness :
  let E := sim_env wrong_password in
  let s0 := with_running sim_wifi true in
  let body := monitor_body E 5 None (Some faulty_callback) s0 in
  let nap := sleep_ms E 2000 body.1.2 in
  body.1.1 = Raise (OtherException "boom")
  /\ nap.1.1 = Ret tt
  /\ monitor_loop E 6 2000 None (Some faulty_callback) s0
     = (let '(r, s3, t3) :=
          monitor_loop E 5 2000 None (Some faulty_callback) nap.1.2 in
        (r, s3,
         body.2 ++ [EvLog ERROR "Uncaught exception: {}"
                          [AExn (OtherException "boom")];
                    EvSleep 2000] ++ t3)).
Proof.
  intros E s0 body nap.
  split; [vm_compute; reflexivity|]. split; [vm_compute; reflexivity|].
  apply (proj2 (proj2 (monitor_survives_fault E 5 2000 None (Some faulty_callback)
                         s0 (OtherException "boom") body.1.2 body.2
                         eq_refl ltac:(vm_compute; reflexivity) eq_refl))
               nap.1.2).
  vm_compute. reflexivity.
Defined.

(** C6 on the simulated radio: the stored power mode is assigned again (no
    call), then 17 is assigned (one call). *)
Lemma settings_written_on_change_witness :
  power_mode_setter (sim_env never_connects) 10555712 sim_wifi
  = (Ret tt, sim_wifi, [])
  /\ __power_mode (power_mode_setter (sim_env never_connects) 17 sim_wifi).1.2
     = Some 17
  /\ pm_calls (power_mode_setter (sim_env never_connects) 17 sim_wifi).2 = [17].
Proof.
  split.
  - apply (proj1 (settings_written_on_change (sim_env never_connects) sim_wifi)).
    reflexivity.
  - apply (proj1 (proj2 (settings_written_on_change (sim_env never_connects) sim_wifi))
             17 (power_mode_setter (sim_env never_connects) 17 sim_wifi).1.1).
    + cbn. discriminate.
    + vm_compute. reflexivity.
Defined.

(** C7 on the simulated radio, for both answers of [connect]: true when the
    radio connects after one poll, false when it reports a wrong
    password. *)
Lemma start_connects_then_monitors_witness :
  (let E := sim_env connects_after_one_poll in
   let c := connect E 5 10000 sim_wifi in
   c.1.1 = Ret true
   /\ start E 5 10000 2000 None None sim_wifi
      = (let '(r, s2, t2) :=
           try_except (monitor E 5 2000 None None) start_handlers c.1.2 in
         (r, s2, c.2 ++ t2)))
  /\ (let E := sim_env wrong_password in
      let c := connect E 5 10000 sim_wifi in
      c.1.1 = Ret false
      /\ start E 5 10000 2000 None None sim_wifi
         = (let '(r, s2, t2) :=
              try_except (monitor E 5 2000 None None) start_handlers c.1.2 in
            (r, s2, c.2 ++ t2))).
Proof.
  split; intros E c; (split; [vm_compute; reflexivity|]).
  - apply (proj2 (start_connects_then_monitors E 5 10000 2000 None None
                    sim_wifi true c.1.2 c.2 ltac:(vm_compute; reflexivity))).
  - apply (proj2 (start_connects_then_monitors E 5 10000 2000 None None
                    sim_wifi false c.1.2 c.2 ltac:(vm_compute; reflexivity))).
Defined.

(** * Further properties of WifiConfiguration *)

Module WifiConfigurationMore.
Import WifiConfiguration.

(** X1: [load] on a record that reads back as the JSON object [d] returns
    the object updated with [d]: the credentials [d] holds are the
    object's afterwards, and the object still names the same file. *)
Theorem load_reads_record (self : obj) (fs : store) (path : string) (d : dict) :
  filename self = inr path ->
  fs !! path = Some (FJson d) ->
  load self fs = inr (update self d)
  /\ (forall v, d !! "ssid" = Some v -> update self d !! "ssid" = Some v)
  /\ (forall v, d !! "password" = Some v ->
                update self d !! "password" = Some v)
  /\ filename (update self d) = inr path.
Proof.
  intros Hp Hf. split; [|split; [|split]].
  - unfold load, load_body, open_read. now rewrite Hp, Hf.
  - intros v Hv. rewrite WifiConfigurationFacts.update_unfold, Hv.
    destruct (d !! "password");
      rewrite ?(lookup_insert_ne _ "password" "ssid") by discriminate;
      apply lookup_insert_eq.
  - intros v Hv. rewrite WifiConfigurationFacts.update_unfold, Hv.
    destruct (d !! "ssid"); apply lookup_insert_eq.
  - unfold filename in *. rewrite WifiConfigurationFacts.update_unfold.
    destruct (d !! "ssid"), (d !! "password");
      rewrite ?(lookup_insert_ne _ "password" "filename") by discriminate;
      rewrite ?(lookup_insert_ne _ "ssid" "filename") by discriminate;
      exact Hp.
Qed.

Lemma load_reads_record_witness :
  let fs : store :=
    {[ "configuration/wifi.json" :=
         FJson (<["ssid" := PyStr "net"]> (<["password" := PyStr "secret"]> ∅)) ]} in
  exists loaded,
    load (init PyNone PyNone) fs = inr loaded
    /\ loaded !! "ssid" = Some (PyStr "net")
    /\ loaded !! "password" = Some (PyStr "secret").
Proof.
  intros fs.
  destruct (load_reads_record (init PyNone PyNone) fs "configuration/wifi.json"
              (<["ssid" := PyStr "net"]> (<["password" := PyStr "secret"]> ∅))
              eq_refl eq_refl) as (Hl & Hs & Hp & _).
  eexists. split; [exact Hl|]. split; [apply Hs | apply Hp]; reflexivity.
Defined.

(** X2: [update] is idempotent, the empty dictionary changes nothing, and
    [update] never removes an attribute. *)
Theorem update_idempotent (self : obj) (config : dict) :
  update (update self config) config = update self config
  /\ update self ∅ = self
  /\ (forall k, is_Some (self !! k) -> is_Some (update self config !! k)).
Proof.
  split; [|split].
  - rewrite !WifiConfigurationFacts.update_unfold.
    destruct (config !! "ssid"), (config !! "password"); try reflexivity;
      apply map_eq; intros k;
      destruct (decide (k = "password")); destruct (decide (k = "ssid"));
      simplify_map_eq; reflexivity.
  - rewrite WifiConfigurationFacts.update_unfold. now rewrite !lookup_empty.
  - intros k Hk. rewrite WifiConfigurationFacts.update_unfold.
    destruct (config !! "ssid"), (config !! "password"); try exact Hk;
      rewrite !lookup_insert; repeat case_decide; eauto.
Qed.

Lemma update_idempotent_witness :
  is_Some (init PyNone PyNone !! "filename")
  /\ is_Some (update (init PyNone PyNone) (<["ssid" := PyStr "net"]> ∅)
                !! "filename").
Proof.
  split; [eexists; reflexivity|].
  apply (update_idempotent (init PyNone PyNone) (<["ssid" := PyStr "net"]> ∅)).
  eexists; reflexivity.
Defined.

(** X3: a successful [save] writes the file the object names and no other:
    every other path of the store is as before, the written path holds a
    record that reads back, and a later [load] from it returns normally.
    When opening the file for writing raises, [save] raises the same
    exception. *)
Theorem save_touches_one_path (self : obj) (fs : store) (path : string) :
  filename self = inr path ->
  (forall fs',
      save self fs = inr fs' ->
      (forall p, p <> path -> fs' !! p = fs !! p)
      /\ exists d, fs' !! path = Some (FJson d)
                   /\ forall other : obj,
                        filename other = inr path ->
                        load other fs' = inr (update other d))
  /\ (forall e, fs !! path = Some (FOpenFault e) -> save self fs = inl e).
Proof.
  intros Hp. unfold save. rewrite WifiConfigurationFacts.to_dict_empty, Hp.
  unfold open_write_dump. split.
  - intros fs' Hs.
    assert (fs' = <[path := FJson ∅]> fs) as ->
      by (destruct (fs !! path) as [[?|?|?]|]; congruence).
    split; [intros p Hne; now apply lookup_insert_ne|].
    exists ∅. split; [apply lookup_insert_eq|].
    intros other Ho. unfold load, load_body, open_read.
    now rewrite Ho, lookup_insert_eq.
  - intros e He. now rewrite He.
Qed.

Lemma save_touches_one_path_witness :
  let fs : store := {[ "boot.py" := FJson ∅ ]} in
  exists fs',
    save (init (PyStr "net") (PyStr "secret")) fs = inr fs'
    /\ fs' !! "boot.py" = fs !! "boot.py".
Proof.
  intros fs. eexists. split; [vm_compute; reflexivity|].
  apply (proj1 (save_touches_one_path (init (PyStr "net") (PyStr "secret")) fs
                  "configuration/wifi.json" eq_refl) _ eq_refl).
  discriminate.
Defined.

(** X4: the handler of [load] covers the reading as well as the opening: an
    [OSError] with errno 2 raised by [json.load] is swallowed like an absent
    record, and the object is unchanged. *)
Theorem load_swallows_errno_2_while_reading
        (self : obj) (fs : store) (path : string) (stream : file) :
  filename self = inr path ->
  open_read path fs = inr stream ->
  json_load stream = inl (OSError 2) ->
  load self fs = inr self.
Proof.
  intros Hp Ho Hj. unfold load, load_body. now rewrite Hp, Ho, Hj.
Qed.

Lemma load_swallows_errno_2_while_reading_witness :
  load (init (PyStr "net") PyNone)
       {[ "configuration/wifi.json" := FReadFault (OSError 2) ]}
  = inr (init (PyStr "net") PyNone).
Proof.
  apply (load_swallows_errno_2_while_reading
           (init (PyStr "net") PyNone)
           {[ "configuration/wifi.json" := FReadFault (OSError 2) ]}
           "configuration/wifi.json" (FReadFault (OSError 2)));
    reflexivity.
Defined.

End WifiConfigurationMore.

(** * Further properties of Wifi *)

Section Frame.

Context {D : Type}.
Variable env : Env D.

Implicit Types (s : Wifi D) (t : list event) (fuel : nat) (P : event -> bool).

Lemma same_settings_refl s : same_settings s s.
Proof. repeat split. Qed.

Lemma same_settings_trans s1 s2 s3 :
  same_settings s1 s2 -> same_settings s2 s3 -> same_settings s1 s3.
Proof.
  intros (? & ? & ? & ?) (? & ? & ? & ?). repeat split; congruence.
Qed.

(** ** [obeys] through the monad *)

Lemma obeys_ret {A} P (a : A) : obeys P (@ret D A a).
Proof. intros s r s' t [= <- <- <-]. split; [apply same_settings_refl | reflexivity]. Qed.

Lemma obeys_raise {A} P (e : exn) : obeys P (@raise D A e).
Proof. intros s r s' t [= <- <- <-]. split; [apply same_settings_refl | reflexivity]. Qed.

Lemma obeys_out_of_fuel {A} P : obeys P (@out_of_fuel D A).
Proof. intros s r s' t [= <- <- <-]. split; [apply same_settings_refl | reflexivity]. Qed.

Lemma obeys_get P : obeys P (@get D).
Proof. intros s r s' t [= <- <- <-]. split; [apply same_settings_refl | reflexivity]. Qed.

Lemma obeys_ticks_ms P : obeys P (@ticks_ms D).
Proof. intros s r s' t [= <- <- <-]. split; [apply same_settings_refl | reflexivity]. Qed.

Lemma obeys_emit P (ev : event) : P ev = true -> obeys P (@emit D ev).
Proof.
  intros H s r s' t [= <- <- <-]. split; [apply same_settings_refl|].
  cbn. now rewrite H.
Qed.

Lemma obeys_set_running P (b : bool) :
  obeys P (fun s => (Ret tt, with_running s b, [])).
Proof. intros s r s' t [= <- <- <-]. split; [repeat split | reflexivity]. Qed.

Lemma obeys_query {A} P (op : call D A) (mk : A -> event) :
  (forall a, P (mk a) = true) -> (forall e, P (EvRaised e) = true) ->
  obeys P (query op mk).
Proof.
  intros Hm He s r s' t. unfold query.
  destruct (op (wlan s)) as [[e|a] d]; intros [= <- <- <-];
    (split; [repeat split|]); cbn; now rewrite ?Hm, ?He.
Qed.

Lemma obeys_command P (ev : event) (op : call D unit) :
  P ev = true -> (forall e, P (EvRaised e) = true) ->
  obeys P (command ev op).
Proof.
  intros Hv He s r s' t. unfold command.
  destruct (op (wlan s)) as [[e|a] d]; intros [= <- <- <-];
    (split; [repeat split|]); cbn; now rewrite ?Hv, ?He.
Qed.

Lemma obeys_run_foreign P (ev : event) (elapsed : Z) (op : foreign D) :
  P ev = true -> (forall e, P (EvRaised e) = true) ->
  obeys P (run_foreign ev elapsed op).
Proof.
  intros Hv He s r s' t. unfold run_foreign.
  destruct (op (wlan s)) as [[e|a] d]; intros [= <- <- <-];
    (split; [repeat split|]); cbn; now rewrite ?Hv, ?He.
Qed.

Lemma obeys_bind {A B} P (m : M D A) (f : A -> M D B) :
  obeys P m -> (forall a, obeys P (f a)) -> obeys P (bind m f).
Proof.
  intros Hm Hf s r s' t H.
  apply bind_inv in H as [(a & s1 & t1 & t2 & H1 & H2 & ->)|[(e & H1 & _)|[H1 _]]].
  - destruct (Hm _ _ _ _ H1) as [Hs1 Ht1], (Hf a _ _ _ _ H2) as [Hs2 Ht2].
    split; [eapply same_settings_trans; eauto|].
    now rewrite forallb_app, Ht1, Ht2.
  - exact (Hm _ _ _ _ H1).
  - exact (Hm _ _ _ _ H1).
Qed.

Lemma obeys_try_except {A} P (m : M D A) (h : exn -> M D A) :
  obeys P m -> (forall e, obeys P (h e)) -> obeys P (try_except m h).
Proof.
  intros Hm Hh s r s' t. unfold try_except.
  destruct (m s) as [[[a|e|] s1] t1] eqn:H1; destruct (Hm _ _ _ _ H1) as [Hs1 Ht1].
  - intros [= <- <- <-]. auto.
  - destruct (h e s1) as [[r2 s2] t2] eqn:H2. intros [= <- <- <-].
    destruct (Hh e _ _ _ _ H2) as [Hs2 Ht2].
    split; [eapply same_settings_trans; eauto|].
    now rewrite forallb_app, Ht1, Ht2.
  - intros [= <- <- <-]. auto.
Qed.

Lemma obeys_try_finally {A} P (m : M D A) (fin : M D unit) :
  obeys P m -> obeys P fin -> obeys P (try_finally m fin).
Proof.
  intros Hm Hf s r s' t. unfold try_finally.
  destruct (m s) as [[r1 s1] t1] eqn:H1; destruct (Hm _ _ _ _ H1) as [Hs1 Ht1].
  destruct (fin s1) as [[r2 s2] t2] eqn:H2; destruct (Hf _ _ _ _ H2) as [Hs2 Ht2].
  assert (same_settings s s2 /\ forallb P (t1 ++ t2) = true) as Hgoal.
  { split; [eapply same_settings_trans; eauto|].
    now rewrite forallb_app, Ht1, Ht2. }
  destruct r1 as [a| |]; [| |intros [= <- <- <-]; auto];
    destruct r2 as [[]| |]; intros [= <- <- <-]; exact Hgoal.
Qed.

Lemma obeys_weaken {A} P Q (m : M D A) :
  (forall ev, P ev = true -> Q ev = true) -> obeys P m -> obeys Q m.
Proof.
  intros HPQ Hm s r s' t H. destruct (Hm _ _ _ _ H) as [Hs Ht].
  split; [exact Hs|].
  rewrite forallb_forall in *. auto.
Qed.

Ltac obey :=
  repeat first
    [ apply obeys_ret | apply obeys_raise | apply obeys_out_of_fuel
    | apply obeys_get | apply obeys_ticks_ms | apply obeys_set_running
    | apply obeys_emit; reflexivity
    | apply obeys_query; intros ?; reflexivity
    | apply obeys_command; [reflexivity | intros ?; reflexivity]
    | apply obeys_run_foreign; [reflexivity | intros ?; reflexivity]
    | apply obeys_bind; [|intros ?]
    | apply obeys_try_except; [|intros ?]
    | apply obeys_try_finally
    | match goal with
      | |- obeys _ (if ?c then _ else _) => destruct c
      | |- obeys _ (match ?c with _ => _ end) => destruct c
      end ].

(** ** The methods *)

Lemma obeys_Wifi_str : obeys reconnect_event (Wifi_str env).
Proof. unfold Wifi_str, ifconfig. obey. Qed.

Lemma obeys_reconnect_poll fuel (start T : Z) :
  obeys reconnect_event (reconnect_poll env fuel start T).
Proof.
  induction fuel as [|fuel IH]; cbn [reconnect_poll];
    unfold isconnected, status, sleep_ms; obey. exact IH.
Qed.

Lemma obeys_reconnect fuel (T : Z) : obeys reconnect_event (reconnect env fuel T).
Proof.
  unfold reconnect, isconnected, log. obey;
    auto using obeys_reconnect_poll, obeys_Wifi_str.
Qed.

Lemma reconnect_event_allowed (ev : event) :
  reconnect_event ev = true -> negb (reconfigures ev) = true.
Proof. destruct ev as [| [] | | | | | | | | | | | |[] ? ?]; cbn; congruence. Qed.

Lemma allowed_reconnect_poll fuel (start T : Z) :
  obeys (fun ev => negb (reconfigures ev)) (reconnect_poll env fuel start T).
Proof.
  apply (obeys_weaken reconnect_event); [apply reconnect_event_allowed|].
  apply obeys_reconnect_poll.
Qed.

Lemma obeys_connect fuel (T : Z) :
  obeys (fun ev => negb (reconfigures ev)) (connect env fuel T).
Proof.
  unfold connect. obey. apply allowed_reconnect_poll.
Qed.

Lemma obeys_monitor_body fuel rcb fcb :
  obeys (fun ev => negb (reconfigures ev)) (monitor_body env fuel rcb fcb).
Proof.
  unfold monitor_body, active, isconnected, log, ip_address, ifconfig. obey.
  apply allowed_reconnect_poll.
Qed.

Lemma obeys_monitor_loop fuel (sleep_millis : Z) rcb fcb :
  obeys (fun ev => negb (reconfigures ev))
        (monitor_loop env fuel sleep_millis rcb fcb).
Proof.
  induction fuel as [|fuel IH]; cbn [monitor_loop]; obey;
    auto using allowed_reconnect_poll.
  unfold monitor_handlers, log. obey.
Qed.

Lemma obeys_start fuel (timeout sleep_millis : Z) rcb fcb :
  obeys (fun ev => negb (reconfigures ev))
        (start env fuel timeout sleep_millis rcb fcb).
Proof.
  unfold start, start_body, start_handlers, monitor, log. obey;
    auto using allowed_reconnect_poll, obeys_monitor_loop.
Qed.

(** X5: [reconnect] makes no call but its own: the connection request, the
    [isconnected], [status] and [ifconfig] queries, 50 ms suspensions and
    its info and warning entries.  It never switches the radio on or off,
    never writes a setting, never calls a callback, and it leaves the
    credentials and the two settings of the supervisor as they were. *)
Theorem reconnect_makes_only_its_calls fuel (T : Z) s (r : outcome bool) s' t :
  reconnect env fuel T s = (r, s', t) ->
  same_settings s s'
  /\ forallb reconnect_event t = true
  /\ existsb is_callback t = false
  /\ existsb reconfigures t = false.
Proof.
  intros H. destruct (obeys_reconnect _ _ _ _ _ _ H) as [Hs Ht].
  split; [exact Hs|]. split; [exact Ht|].
  rewrite forallb_forall in Ht.
  split; apply not_true_is_false; intros Hex;
    apply existsb_exists in Hex as (ev & Hin & Hev);
    specialize (Ht ev Hin); destruct ev as [| [] | | | | | | | | | | | |[] ? ?];
    cbn in *; congruence.
Qed.

(** X6: [start], and with it [connect] and [monitor], never changes the
    credentials, the stored country code or the stored power mode, and
    never resets the radio, switches it off or writes a setting to it,
    whatever the radio, the scheduler and the callbacks do. *)
Theorem start_keeps_settings fuel (timeout sleep_millis : Z) rcb fcb
        s (r : outcome unit) s' t :
  start env fuel timeout sleep_millis rcb fcb s = (r, s', t) ->
  same_settings s s' /\ existsb reconfigures t = false.
Proof.
  intros H. destruct (obeys_start _ _ _ _ _ _ _ _ _ H) as [Hs Ht].
  split; [exact Hs|].
  apply not_true_is_false; intros Hex.
  apply existsb_exists in Hex as (ev & Hin & Hev).
  rewrite forallb_forall in Ht. specialize (Ht ev Hin).
  now rewrite Hev in Ht.
Qed.

End Frame.

Lemma reconnect_makes_only_its_calls_witness :
  let run := reconnect (sim_env never_connects) 5 120 sim_wifi in
  same_settings sim_wifi run.1.2
  /\ forallb reconnect_event run.2 = true
  /\ existsb is_callback run.2 = false
  /\ existsb reconfigures run.2 = false.
Proof.
  intros run.
  apply (reconnect_makes_only_its_calls (sim_env never_connects) 5 120 sim_wifi
           run.1.1).
  subst run.
  destruct (reconnect (sim_env never_connects) 5 120 sim_wifi) as [[r s'] t].
  reflexivity.
Defined.

Lemma start_keeps_settings_witness :
  let run := start (sim_env wrong_password) 5 10000 2000
                   (Some (fun _ => quiet_callback)) (Some faulty_callback)
                   sim_wifi in
  same_settings sim_wifi run.1.2 /\ existsb reconfigures run.2 = false.
Proof.
  intros run.
  apply (start_keeps_settings (sim_env wrong_password) 5 10000 2000
           (Some (fun _ => quiet_callback)) (Some faulty_callback)
           sim_wifi run.1.1).
  subst run.
  destruct (start (sim_env wrong_password) 5 10000 2000
                  (Some (fun _ => quiet_callback)) (Some faulty_callback)
                  sim_wifi) as [[r s'] t].
  reflexivity.
Defined.

Section ReconnectMore.

Context {D : Type}.
Variable env : Env D.

Implicit Types (s : Wifi D) (t : list event) (fuel : nat) (T : Z).

Lemma query_settings {A} (op : call D A) (mk : A -> event) s (r : outcome A) s' t :
  query op mk s = (r, s', t) -> same_settings s s'.
Proof.
  unfold query. destruct (op (wlan s)) as [[e|a] d]; intros [= <- <- <-];
    repeat split.
Qed.

Lemma command_settings (ev : event) (op : call D unit) s (r : outcome unit) s' t :
  command ev op s = (r, s', t) -> same_settings s s'.
Proof.
  unfold command. destruct (op (wlan s)) as [[e|a] d]; intros [= <- <- <-];
    repeat split.
Qed.

Lemma Wifi_str_value s (me : string) s' t :
  Wifi_str env s = (Ret me, s', t) ->
  exists cfg, t = [EvIfconfig cfg] /\ me = Wifi_repr (_ssid s) cfg
              /\ clock s' = clock s.
Proof.
  unfold Wifi_str. intros H.
  apply bind_inv in H as [(cfg & s1 & t1 & t2 & Hq & H & ->)|[(e & _ & ?)|[_ ?]]];
    try discriminate.
  pose proof (query_settings _ _ _ _ _ _ Hq) as (Hssid & _).
  apply query_inv in Hq as [Hc [(a & [= ->] & ->)|(x & ? & _)]]; try discriminate.
  destruct a as [[[ip sn] gw] dns]. rewrite bind_get in H.
  injection H as <- <- <-. exists (ip, sn, gw, dns).
  cbn [Wifi_repr app]. rewrite Hssid. auto.
Qed.

(** The runs of [reconnect] that return: the connection request, the
    polling loop, the query that decides the log entry, the entry, and the
    query whose answer is returned. *)
Lemma reconnect_ret_shape fuel T s (b : bool) s' t :
  reconnect env fuel T s = (Ret b, s', t) ->
  exists s1 s2 tp (c : bool) mid,
    clock s1 = clock s
    /\ reconnect_poll env fuel (clock s) T s1 = (Ret tt, s2, tp)
    /\ clock s' = clock s2
    /\ t = EvConnect (_ssid s) (_password s)
             :: tp ++ EvIsConnected c :: mid ++ [EvIsConnected b]
    /\ if c then
         exists cfg,
           mid = [EvIfconfig cfg;
                  EvLog INFO "{} Connected" [AStr (Wifi_repr (_ssid s) cfg)]]
       else
         mid = [EvLog WARNING
                      "Unable to connect to wifi, reconnected timed out after {}ms"
                      [AInt (clock s' - clock s)]].
Proof.
  unfold reconnect. rewrite bind_ticks_ms, bind_get. intros H.
  apply bind_inv in H as [(u & s1 & t1 & t2 & Hq & H & ->)|[(e & _ & ?)|[_ ?]]];
    try discriminate.
  pose proof (command_settings _ _ _ _ _ _ Hq) as (Hssid1 & _).
  apply command_inv in Hq as [Hc1 [[_ ->]|(x & ? & _)]]; try discriminate.
  apply bind_inv in H as [([] & s2 & tp & t3 & Hp & H & ->)|[(e & _ & ?)|[_ ?]]];
    try discriminate.
  destruct (obeys_reconnect_poll env _ _ _ _ _ _ _ Hp) as [(Hssid2 & _) _].
  apply bind_inv in H as [(c & s3 & t4 & t5 & Hq & H & ->)|[(e & _ & ?)|[_ ?]]];
    try discriminate.
  pose proof (query_settings _ _ _ _ _ _ Hq) as (Hssid3 & _).
  apply query_inv in Hq as [Hc3 [(a & [= ->] & ->)|(x & ? & _)]]; try discriminate.
  apply bind_inv in H as [(u' & s4 & t6 & t7 & Hm & H & ->)|[(e & _ & ?)|[_ ?]]];
    try discriminate.
  apply query_inv in H as [Hc5 [(b' & [= ->] & ->)|(x & ? & _)]]; try discriminate.
  exists s1, s2, tp, a. destruct a.
  - apply bind_inv in Hm as [(me & s5 & t8 & t9 & Hs & Hm & ->)|[(e & _ & ?)|[_ ?]]];
      try discriminate.
    apply Wifi_str_value in Hs as (cfg & -> & -> & Hc6).
    injection Hm as ? ? ?; subst.
    exists [EvIfconfig cfg;
            EvLog INFO "{} Connected" [AStr (Wifi_repr (_ssid s) cfg)]].
    split; [exact Hc1|]. split; [exact Hp|]. split; [lia|].
    split; [|eauto].
    cbn [app]. rewrite Hssid3, Hssid2, Hssid1. reflexivity.
  - rewrite bind_ticks_ms in Hm. injection Hm as ? ? ?; subst.
    exists [EvLog WARNING
                  "Unable to connect to wifi, reconnected timed out after {}ms"
                  [AInt (clock s' - clock s)]].
    split; [exact Hc1|]. split; [exact Hp|]. split; [lia|].
    split; [|reflexivity].
    cbn [app ticks_diff]. now rewrite Hc5.
Qed.

(** The first pass of the loop when the radio answers connected. *)
Lemma reconnect_poll_up fuel (start T : Z) s (r : outcome unit) s' t :
  reconnect_poll env (S fuel) start T s = (r, s', t) ->
  existsb reports_down t = false ->
  existsb is_raised t = false ->
  r = Ret tt /\ t = [EvIsConnected true] /\ clock s' = clock s.
Proof.
  cbn [reconnect_poll]. intros H Hd Hr.
  apply bind_inv in H as [(c & s1 & t1 & t2 & Hq & H & ->)|[(e & Hq & ->)|[Hq _]]];
    apply query_inv in Hq as [Hc [(a & Ha & ->)|(x & Hx & ->)]];
    try discriminate.
  injection Ha as ->. destruct a; [|discriminate].
  injection H as <- <- <-. auto.
Qed.




(** ** Where exceptions come from *)

Lemma rofc_ret {A} (a : A) : raises_only_from_calls (@ret D A a).
Proof. intros s x s' t [=]. Qed.

Lemma rofc_get : raises_only_from_calls (@get D).
Proof. intros s x s' t [=]. Qed.

Lemma rofc_ticks_ms : raises_only_from_calls (@ticks_ms D).
Proof. intros s x s' t [=]. Qed.

Lemma rofc_emit (ev : event) : raises_only_from_calls (@emit D ev).
Proof. intros s x s' t [=]. Qed.

Lemma rofc_out_of_fuel {A} : raises_only_from_calls (@out_of_fuel D A).
Proof. intros s x s' t [=]. Qed.

Lemma rofc_query {A} (op : call D A) (mk : A -> event) :
  raises_only_from_calls (query op mk).
Proof.
  intros s x s' t. unfold query.
  destruct (op (wlan s)) as [[e|a] d]; intros [= <- <- <-]. now exists [].
Qed.

Lemma rofc_command (ev : event) (op : call D unit) :
  raises_only_from_calls (command ev op).
Proof.
  intros s x s' t. unfold command.
  destruct (op (wlan s)) as [[e|a] d]; intros [= <- <- <-]. now exists [ev].
Qed.

Lemma rofc_run_foreign (ev : event) (elapsed : Z) (op : foreign D) :
  raises_only_from_calls (run_foreign ev elapsed op).
Proof.
  intros s x s' t. unfold run_foreign.
  destruct (op (wlan s)) as [[e|a] d]; intros [= <- <- <-]. now exists [ev].
Qed.

Lemma rofc_bind {A B} (m : M D A) (f : A -> M D B) :
  raises_only_from_calls m -> (forall a, raises_only_from_calls (f a)) ->
  raises_only_from_calls (bind m f).
Proof.
  intros Hm Hf s x s' t H.
  apply bind_inv in H as [(a & s1 & t1 & t2 & H1 & H2 & ->)|[(e & H1 & [= ->])|[_ ?]]];
    [|eauto|discriminate].
  destruct (Hf a _ _ _ _ H2) as [t' ->]. exists (t1 ++ t').
  now rewrite app_assoc.
Qed.

Ltac rofc :=
  repeat first
    [ apply rofc_ret | apply rofc_get | apply rofc_ticks_ms | apply rofc_emit
    | apply rofc_out_of_fuel | apply rofc_query | apply rofc_command
    | apply rofc_run_foreign
    | apply rofc_bind; [|intros ?]
    | match goal with
      | |- raises_only_from_calls (if ?c then _ else _) => destruct c
      | |- raises_only_from_calls (match ?c with _ => _ end) => destruct c
      end ].

Lemma rofc_reconnect_poll fuel (start T : Z) :
  raises_only_from_calls (reconnect_poll env fuel start T).
Proof.
  induction fuel as [|fuel IH]; cbn [reconnect_poll];
    unfold isconnected, status, sleep_ms; rofc. exact IH.
Qed.

Lemma rofc_reconnect fuel T : raises_only_from_calls (reconnect env fuel T).
Proof.
  unfold reconnect, isconnected, log, Wifi_str, ifconfig. rofc.
  apply rofc_reconnect_poll.
Qed.


Lemma rofc_monitor_body fuel rcb fcb :
  raises_only_from_calls (monitor_body env fuel rcb fcb).
Proof.
  unfold monitor_body, active, isconnected, log, ip_address, ifconfig. rofc.
  apply rofc_reconnect_poll.
Qed.

Lemma raised_is_recorded t' (x : exn) : existsb is_raised (t' ++ [EvRaised x]) = true.
Proof. rewrite existsb_app. cbn. apply orb_true_r. Qed.

(** X9: when the radio answers connected to every [isconnected()] of the
    call and nothing raises, [reconnect] returns true at once, whatever the
    timeout: it asks for no status, does not suspend, takes no time, and
    writes one info entry whose text is the [__str__] of the supervisor,
    built from the ssid and from what [ifconfig()] answered. *)
Theorem reconnect_connected_at_once fuel T s (r : outcome bool) s' t :
  (1 <= fuel)%nat ->
  reconnect env fuel T s = (r, s', t) ->
  existsb reports_down t = false ->
  existsb is_raised t = false ->
  r = Ret true
  /\ clock s' = clock s
  /\ exists cfg,
      t = [EvConnect (_ssid s) (_password s);
           EvIsConnected true;
           EvIsConnected true;
           EvIfconfig cfg;
           EvLog INFO "{} Connected" [AStr (Wifi_repr (_ssid s) cfg)];
           EvIsConnected true].
Proof.
  intros Hfuel H Hd Hr. destruct fuel as [|fuel]; [lia|].
  destruct r as [b|x|].
  - apply reconnect_ret_shape in H
      as (s1 & s2 & tp & c & mid & Hc1 & Hp & Hc2 & -> & Hmid).
    cbn [existsb reports_down is_raised orb] in Hd, Hr.
    rewrite existsb_app in Hd, Hr.
    apply orb_false_iff in Hd as [Hd Hd'], Hr as [Hr Hr'].
    apply reconnect_poll_up in Hp as (_ & -> & Hc3); auto.
    destruct c; [|discriminate]. destruct Hmid as [cfg ->].
    cbn in Hd'. destruct b; [|discriminate].
    split; [reflexivity|]. split; [lia|]. exists cfg. reflexivity.
  - apply rofc_reconnect in H as [t' ->].
    now rewrite raised_is_recorded in Hr.
  - apply reconnect_inv in H
      as [(x' & ? & _)
         |[(tp & rp & s1 & Hp & Hc1 & Hrp & _ & ->)
          |(tp & s1 & s2 & tail & _ & _ & _ & _ & _ & _ & Hnf & _)]];
      [discriminate| |contradiction].
    cbn [existsb reports_down is_raised orb] in Hd, Hr.
    apply reconnect_poll_up in Hp as (-> & _); auto. congruence.
Qed.


End ReconnectMore.



Lemma reconnect_connected_at_once_witness :
  let run := reconnect (sim_env link_up) 1 10000 sim_wifi in
  run.1.1 = Ret true
  /\ clock run.1.2 = clock sim_wifi
  /\ exists cfg,
      run.2 = [EvConnect "net" "secret";
               EvIsConnected true;
               EvIsConnected true;
               EvIfconfig cfg;
               EvLog INFO "{} Connected" [AStr (Wifi_repr "net" cfg)];
               EvIsConnected true].
Proof.
  intros run.
  apply (reconnect_connected_at_once (sim_env link_up) 1 10000 sim_wifi
           run.1.1 run.1.2 run.2).
  - lia.
  - subst run.
    destruct (reconnect (sim_env link_up) 1 10000 sim_wifi) as [[r s'] t].
    reflexivity.
  - vm_compute. reflexivity.
  - vm_compute. reflexivity.
Defined.


Section MonitorMore.

Context {D : Type}.
Variable env : Env D.

Implicit Types (s : Wifi D) (t : list event) (fuel : nat).









End MonitorMore.

Section MonitorStop.

Context {D : Type}.
Variable env : Env D.

Implicit Types (s : Wifi D) (t : list event) (fuel : nat).

Lemma monitor_loop_returns_stopped fuel (sleep_millis : Z) rcb fcb s s' t :
  monitor_loop env fuel sleep_millis rcb fcb s = (Ret tt, s', t) ->
  _running s' = false.
Proof.
  revert s t. induction fuel as [|fuel IH]; intros s t; cbn [monitor_loop];
    [discriminate|].
  rewrite bind_get. destruct (_running s) eqn:Hrun.
  - intros H.
    apply bind_inv in H as [(u & s1 & t1 & t2 & _ & H & _)|[(e & _ & ?)|[_ ?]]];
      try discriminate.
    exact (IH _ _ H).
  - intros [= <- <-]. exact Hrun.
Qed.

(** X13: [monitor] returns normally only when it has been asked to stop:
    [_running] is false in the state it returns in.  [start] returns
    normally only in that way, or after its handler has logged the
    exception that ended [connect] or [monitor]. *)
Theorem monitor_returns_only_when_stopped
        fuel (timeout sleep_millis : Z) rcb fcb s s' t :
  (monitor env fuel sleep_millis rcb fcb s = (Ret tt, s', t) ->
   _running s' = false)
  /\ (start env fuel timeout sleep_millis rcb fcb s = (Ret tt, s', t) ->
      _running s' = false
      \/ exists e t', catchable e = true /\ t = t' ++ [start_log_entry e]).
Proof.
  split.
  - unfold monitor. intros H.
    apply bind_inv in H as [(u & s1 & t1 & t2 & _ & H & _)|[(e & _ & ?)|[_ ?]]];
      try discriminate.
    exact (monitor_loop_returns_stopped _ _ _ _ _ _ _ H).
  - unfold start, try_except.
    destruct (start_body env fuel timeout sleep_millis rcb fcb s)
      as [[[[]|e|] s1] t1] eqn:Hb; [| |discriminate].
    + intros [= <- <-]. left. unfold start_body in Hb.
      apply bind_inv in Hb as [(b & s2 & t2 & t3 & _ & H & _)|[(e & _ & ?)|[_ ?]]];
        try discriminate.
      unfold monitor in H.
      apply bind_inv in H as [(u & s3 & t4 & t5 & _ & H & _)|[(e & _ & ?)|[_ ?]]];
        try discriminate.
      exact (monitor_loop_returns_stopped _ _ _ _ _ _ _ H).
    + destruct e as [|n|n|n]; cbn; intros [= <- <-]; right.
      * exists CancelledError, t1. auto.
      * exists (OSError n), t1. auto.
      * exists (OtherException n), t1. auto.
Qed.

(** X14: a stop request is honoured where the loop tests [_running], after
    the iteration under way has finished (its suspension included).  An
    iteration that returns takes the loop to its next test; when the flag
    is clear there, [monitor] returns having made no further call; and
    since [monitor] sets the flag on entry, it runs a first iteration
    whatever the flag was before. *)
Theorem monitor_stops_at_loop_test fuel (sleep_millis : Z) rcb fcb s s1 t1 :
  monitor_iteration env (S fuel) sleep_millis rcb fcb (with_running s true)
  = (Ret tt, s1, t1) ->
  monitor env (S (S fuel)) sleep_millis rcb fcb s
  = (let '(r, s2, t2) := monitor_loop env (S fuel) sleep_millis rcb fcb s1 in
     (r, s2, t1 ++ t2))
  /\ (_running s1 = false ->
      monitor env (S (S fuel)) sleep_millis rcb fcb s = (Ret tt, s1, t1)).
Proof.
  intros Hit.
  assert (Hm : monitor env (S (S fuel)) sleep_millis rcb fcb s
               = (let '(r, s2, t2) :=
                    monitor_loop env (S fuel) sleep_millis rcb fcb s1 in
                  (r, s2, t1 ++ t2))).
  { unfold monitor. unfold bind at 1.
    change (monitor_loop env (S (S fuel)) sleep_millis rcb fcb)
      with (let! s0 := get in
            if _running s0 then
              run! monitor_iteration env (S fuel) sleep_millis rcb fcb in
              monitor_loop env (S fuel) sleep_millis rcb fcb
            else ret tt).
    rewrite bind_get. cbn [_running with_running]. unfold bind at 1.
    rewrite Hit.
    destruct (monitor_loop env (S fuel) sleep_millis rcb fcb s1) as [[r s2] t2].
    reflexivity. }
  split; [exact Hm|].
  intros Hstop. rewrite Hm. cbn [monitor_loop]. rewrite bind_get, Hstop.
  unfold ret. now rewrite app_nil_r.
Qed.

(** X15: the constructor.  It stores the credentials, writes the power mode
    and then the country to the radio, once each and in that order (after
    resetting the radio when [reset] is set), and leaves the supervisor not
    running; if a call to the radio raises, the calls after it are not
    made. *)
Theorem Wifi_init_writes_settings (ssid password country_code : string)
        (power_mode : Z) (reset : bool) (d : D) (now : Z)
        (r : outcome unit) s' t :
  Wifi_init env ssid password country_code power_mode reset d now = (r, s', t) ->
  _ssid s' = ssid /\ _password s' = password /\ clock s' = now
  /\ (r = Ret tt ->
      __power_mode s' = Some power_mode
      /\ __country_code s' = Some country_code
      /\ _running s' = false
      /\ t = (if reset then [EvDeinit] else [])
               ++ [EvConfigPm power_mode; EvCountry country_code])
  /\ (forall x, r = Raise x ->
                exists t', t = t' ++ [EvRaised x]
                           /\ (In (EvCountry country_code) t' ->
                               In (EvConfigPm power_mode) t'))
  /\ r <> OutOfFuel.
Proof.
  unfold Wifi_init, power_mode_setter, country_code_setter.
  unfold bind, command, get, ret. cbn.
  destruct reset; cbn;
    repeat (match goal with
            | |- context [wlan_deinit env ?x] =>
                destruct (wlan_deinit env x) as [[?|[]] ?]
            | |- context [wlan_config_pm env ?p ?x] =>
                destruct (wlan_config_pm env p x) as [[?|[]] ?]
            | |- context [country env ?c ?x] =>
                destruct (country env c x) as [[?|[]] ?]
            | |- context [decide ?P] =>
                destruct (decide P) as [Heq|_]; [cbn in Heq; discriminate|]
            end; cbn);
    intros [= <- <- <-]; cbn;
    (split; [reflexivity|]); (split; [reflexivity|]); (split; [reflexivity|]);
    (split; [intros [=]; auto|]);
    (split; [|discriminate]);
    intros x [= <-].
  all: first
    [ exists [EvDeinit]; split; [reflexivity|]; cbn; intuition discriminate
    | exists [EvDeinit; EvConfigPm power_mode]; split; [reflexivity|];
      cbn; intuition discriminate
    | exists [EvDeinit; EvConfigPm power_mode; EvCountry country_code];
      split; [reflexivity|]; cbn; intuition
    | exists [EvConfigPm power_mode]; split; [reflexivity|];
      cbn; intuition discriminate
    | exists [EvConfigPm power_mode; EvCountry country_code];
      split; [reflexivity|]; cbn; intuition ].
Qed.

End MonitorStop.



Lemma monitor_returns_only_when_stopped_witness :
  let run := monitor (sim_env link_up) 5 2000 None None sim_wifi in
  run.1.1 = Ret tt /\ _running run.1.2 = false.
Proof.
  intros run. split; [vm_compute; reflexivity|].
  apply (proj1 (monitor_returns_only_when_stopped
                  (sim_env link_up) 5 10000 2000 None None sim_wifi
                  run.1.2 run.2)).
  vm_compute. reflexivity.
Defined.

Lemma monitor_stops_at_loop_test_witness :
  let once := monitor_iteration (sim_env link_up) 4 2000 None None
                                (with_running sim_wifi true) in
  _running sim_wifi = false
  /\ _running once.1.2 = false
  /\ monitor (sim_env link_up) 5 2000 None None sim_wifi
     = (Ret tt, once.1.2, once.2).
Proof.
  intros once. split; [reflexivity|]. split; [vm_compute; reflexivity|].
  apply (proj2 (monitor_stops_at_loop_test
                  (sim_env link_up) 3 2000 None None sim_wifi
                  once.1.2 once.2 ltac:(vm_compute; reflexivity))).
  vm_compute. reflexivity.
Defined.

Lemma Wifi_init_writes_settings_witness :
  let made := Wifi_init (sim_env never_connects) "net" "secret" "US" 10555712
                        true (mkSim true 0) 0 in
  made.1.1 = Ret tt
  /\ __power_mode made.1.2 = Some 10555712
  /\ __country_code made.1.2 = Some "US"
  /\ _running made.1.2 = false
  /\ made.2 = [EvDeinit] ++ [EvConfigPm 10555712; EvCountry "US"].
Proof.
  intros made. split; [vm_compute; reflexivity|].
  apply (proj1 (proj2 (proj2 (proj2
           (Wifi_init_writes_settings
              (sim_env never_connects) "net" "secret" "US" 10555712
              true (mkSim true 0) 0 made.1.1 made.1.2 made.2
              ltac:(vm_compute; reflexivity)))))).
  vm_compute. reflexivity.
Defined.
